(** * Monkey detection: the sighting de-duplication handlers

    A shallow embedding of the two [handle_detection] slots of the
    repository, [FixedMonkeyDetectorGUI.handle_detection]
    (monkey_detector_app.py) and [MonkeyDetectionGUI.handle_detection]
    (monkey_detection_gui.py), together with the session reset performed
    by [start_detection]; then of what surrounds them: the loops of the
    detection threads that emit the signals, the buttons of the window
    of monkey_detector_app.py, the hyper-parameter search and the
    webcam loop of test_your_model.py.

    Python integers are unbounded and are modelled by [Z]; Python floats
    are IEEE-754 binary64 values and are modelled by Rocq's primitive
    [float].  Instance attributes become the fields of a record [Self];
    a method is a state transformer that also records, in order, the
    calls it makes on widgets, on the serial port and on the log. *)

From Stdlib Require Import String.
From Stdlib Require Import ZArith List Bool Lia.
From Stdlib Require Import Floats.PrimFloat.
From Stdlib Require Numbers.Cyclic.Int63.Uint63.
From Stdlib Require Floats.SpecFloat Floats.FloatOps Floats.FloatAxioms.
Import ListNotations.
Local Open Scope Z_scope.

(** ** Methods as state transformers with a call trace *)

Module Method.

Section Act.
Context {S E : Type}.

(** A method body: from the attributes before the call to a result,
    the attributes after it and the calls made meanwhile. *)
Definition Act (A : Type) : Type := S -> A * S * list E.

Definition ret {A} (a : A) : Act A := fun s => (a, s, []).

Definition bind {A B} (m : Act A) (k : A -> Act B) : Act B :=
  fun s =>
    let '(a, s1, out1) := m s in
    let '(b, s2, out2) := k a s1 in
    (b, s2, out1 ++ out2).

Definition get : Act S := fun s => (s, s, []).
Definition modify (f : S -> S) : Act unit := fun s => (tt, f s, []).
Definition call (e : E) : Act unit := fun s => (tt, s, [e]).
Definition when (b : bool) (m : Act unit) : Act unit :=
  if b then m else ret tt.

Definition exec {A} (m : Act A) (s : S) : S := snd (fst (m s)).
Definition calls {A} (m : Act A) (s : S) : list E := snd (m s).
End Act.

Arguments Act : clear implicits.

Declare Scope method_scope.
Delimit Scope method_scope with method.
Notation "x <- m ;; k" := (bind m (fun x => k))
  (at level 61, m at next level, right associativity) : method_scope.
Notation "m ;; k" := (bind m (fun _ => k))
  (at level 61, right associativity) : method_scope.

End Method.

Import Method.
Local Open Scope method_scope.

(** ** What both applications share *)

(** The pixel buffer of a frame (a numpy array); no handler reads it. *)
Definition ndarray : Type := list Z.

(** One emission of the [detection_result] signal,
    [pyqtSignal(bool, float, np.ndarray)]. *)
Record DetectionResult : Type := mkResult {
  detected : bool;
  confidence : float;
  frame : ndarray
}.

(** The host clock as read during one call of a slot: [time.time()] and
    [datetime.now().strftime('%H:%M:%S')]; a slot that reads the clock
    more than once in a call is given the same reading each time. *)
Record Clock : Type := mkClock {
  time_time : float;
  strftime_hms : string
}.

(** The k-th delivery of a signal reads the clock [sched k]. *)
Definition Schedule : Type := nat -> Clock.
Definition later (sched : Schedule) : Schedule := fun k => sched (S k).

(** Lines written to the serial port. *)
Inductive Command : Type := MONKEY_DETECTED | STOP_ALERT.

(** The events of the specification's [observe]. *)
Inductive SightingEvent : Type :=
| SightingStarted (count : Z) (conf : float)
| SightingOngoing (conf : float)
| SightingEnded
| Idle.

Definition is_started (e : SightingEvent) : bool :=
  match e with SightingStarted _ _ => true | _ => false end.
Definition is_ended (e : SightingEvent) : bool :=
  match e with SightingEnded => true | _ => false end.

(** ** monkey_detector_app.py *)

Module DetectorApp.

(** The attributes of [FixedMonkeyDetectorGUI] that the detection
    methods read or write.  [model] and [arduino] are [None] or a
    handle and only that distinction is read; [camera] is [None] or a
    capture whose [isOpened()] is the carried boolean. *)
Record Self : Type := mkSelf {
  model : bool;
  arduino : bool;
  camera : option bool;
  detection_active : bool;
  arduino_connected : bool;
  confidence_threshold : float;
  detection_count : Z;
  monkey_present : bool;
  detection_start_time : option float;
  no_detection_frames : Z;
  min_gap_frames : Z
}.

(** [__init__]. *)
Definition init : Self := {|
  model := false;
  arduino := false;
  camera := None;
  detection_active := false;
  arduino_connected := false;
  confidence_threshold := 0.5%float;
  detection_count := 0;
  monkey_present := false;
  detection_start_time := None;
  no_detection_frames := 0;
  min_gap_frames := 30
|}.

Definition set_detection_active v s :=
  mkSelf s.(model) s.(arduino) s.(camera) v s.(arduino_connected)
    s.(confidence_threshold) s.(detection_count) s.(monkey_present)
    s.(detection_start_time) s.(no_detection_frames) s.(min_gap_frames).
Definition set_detection_count v s :=
  mkSelf s.(model) s.(arduino) s.(camera) s.(detection_active)
    s.(arduino_connected) s.(confidence_threshold) v s.(monkey_present)
    s.(detection_start_time) s.(no_detection_frames) s.(min_gap_frames).
Definition set_monkey_present v s :=
  mkSelf s.(model) s.(arduino) s.(camera) s.(detection_active)
    s.(arduino_connected) s.(confidence_threshold) s.(detection_count) v
    s.(detection_start_time) s.(no_detection_frames) s.(min_gap_frames).
Definition set_detection_start_time v s :=
  mkSelf s.(model) s.(arduino) s.(camera) s.(detection_active)
    s.(arduino_connected) s.(confidence_threshold) s.(detection_count)
    s.(monkey_present) v s.(no_detection_frames) s.(min_gap_frames).
Definition set_no_detection_frames v s :=
  mkSelf s.(model) s.(arduino) s.(camera) s.(detection_active)
    s.(arduino_connected) s.(confidence_threshold) s.(detection_count)
    s.(monkey_present) s.(detection_start_time) v s.(min_gap_frames).
Definition set_min_gap_frames v s :=
  mkSelf s.(model) s.(arduino) s.(camera) s.(detection_active)
    s.(arduino_connected) s.(confidence_threshold) s.(detection_count)
    s.(monkey_present) s.(detection_start_time) s.(no_detection_frames) v.

(** Texts shown in [current_status_label]. *)
Inductive StatusText : Type :=
| NewMonkeyDetected (conf : float)   (* NEW MONKEY DETECTED! (conf) *)
| TrackingSameMonkey (conf : float)  (* Tracking Same Monkey (conf) *)
| Monitoring.                        (* Status: Monitoring... *)

(** Messages given to [log_message] and [show_error]. *)
Inductive Message : Type :=
| NewMonkeyCount (count : Z) (conf : float)
| MonkeyLeftArea
| DetectionStarted
| LoadModelFirst
| StartCameraFirst.

(** The calls the methods make on the widgets, the serial port, the
    worker threads and the log, with the clock reading each one
    prints. *)
Inductive Call : Type :=
| detection_count_label_setText (count : Z)
| current_status_label_setText (t : StatusText)
| last_detection_label_setText (hms : string)
| arduino_write (c : Command)
| log_text_append (hms : string) (m : Message)
| critical_box (m : Message)
| detection_thread_start (threshold : float)
| system_status_label_setText_active.

(** [log_message]: the message is stamped with the current time and
    appended to the log widget (which then drops its first line once it
    holds more than 50). *)
Definition log_message (clk : Clock) (m : Message) : Act Self Call unit :=
  call (log_text_append (strftime_hms clk) m).

(** [show_error]. *)
Definition show_error (clk : Clock) (m : Message) : Act Self Call unit :=
  call (critical_box m) ;;
  log_message clk m.

(** [handle_detection(self, detected, confidence, frame)].  A failing
    [arduino.write] is swallowed by the bare [except], so the write is
    recorded as attempted. *)
Definition handle_detection (r : DetectionResult) (clk : Clock)
  : Act Self Call unit :=
  if detected r then
    modify (set_no_detection_frames 0) ;;
    self <- get ;;
    if negb (monkey_present self) then
      modify (set_monkey_present true) ;;
      modify (fun s => set_detection_count (detection_count s + 1) s) ;;
      modify (set_detection_start_time (Some (time_time clk))) ;;
      self <- get ;;
      call (detection_count_label_setText (detection_count self)) ;;
      call (current_status_label_setText (NewMonkeyDetected (confidence r))) ;;
      call (last_detection_label_setText (strftime_hms clk)) ;;
      when (arduino_connected self && arduino self)
        (call (arduino_write MONKEY_DETECTED)) ;;
      log_message clk (NewMonkeyCount (detection_count self) (confidence r))
    else
      call (current_status_label_setText (TrackingSameMonkey (confidence r)))
  else
    modify (fun s => set_no_detection_frames (no_detection_frames s + 1) s) ;;
    self <- get ;;
    if monkey_present self
       && (min_gap_frames self <=? no_detection_frames self) then
      modify (set_monkey_present false) ;;
      call (current_status_label_setText Monitoring) ;;
      when (arduino_connected self && arduino self)
        (call (arduino_write STOP_ALERT)) ;;
      log_message clk MonkeyLeftArea
    else if negb (monkey_present self) then
      call (current_status_label_setText Monitoring)
    else
      ret tt.

(** [start_detection]: the two guards, then the reset of the
    detection state and the start of the worker thread. *)
Definition start_detection (clk : Clock) : Act Self Call unit :=
  self <- get ;;
  if negb (model self) then
    show_error clk LoadModelFirst
  else if match camera self with
          | None => true
          | Some opened => negb opened
          end then
    show_error clk StartCameraFirst
  else
    modify (set_detection_active true) ;;
    modify (set_monkey_present false) ;;
    modify (set_detection_start_time None) ;;
    modify (set_no_detection_frames 0) ;;
    self <- get ;;
    call (detection_thread_start (confidence_threshold self)) ;;
    log_message clk DetectionStarted ;;
    call system_status_label_setText_active.

(** *** The slot driven by a stream of signals *)

(** The attributes after the signals [rs] were delivered in order,
    the k-th one at clock reading [sched k]. *)
Fixpoint final (sched : Schedule) (self : Self) (rs : list DetectionResult)
  : Self :=
  match rs with
  | [] => self
  | r :: rs' =>
      final (later sched) (exec (handle_detection r (sched O)) self) rs'
  end.

(** The attributes after each delivery. *)
Fixpoint states (sched : Schedule) (self : Self) (rs : list DetectionResult)
  : list Self :=
  match rs with
  | [] => []
  | r :: rs' =>
      let self' := exec (handle_detection r (sched O)) self in
      self' :: states (later sched) self' rs'
  end.

(** The calls made during each delivery. *)
Fixpoint trace (sched : Schedule) (self : Self) (rs : list DetectionResult)
  : list (list Call) :=
  match rs with
  | [] => []
  | r :: rs' =>
      calls (handle_detection r (sched O)) self
        :: trace (later sched) (exec (handle_detection r (sched O)) self) rs'
  end.

(** *** The specification's view of the slot *)

(** The debouncer state proper: (present, absentRunLength,
    sightingCount). *)
Definition core (s : Self) : bool * Z * Z :=
  (monkey_present s, no_detection_frames s, detection_count s).

(** The event a delivery stands for, read off the calls it made: a new
    sighting is the one that logs the count, a departure the one that
    logs that the monkey left, an ongoing sighting the one that shows
    the tracking status; any other delivery is idle. *)
Fixpoint event_of (cs : list Call) : SightingEvent :=
  match cs with
  | [] => Idle
  | log_text_append _ (NewMonkeyCount n c) :: _ => SightingStarted n c
  | log_text_append _ MonkeyLeftArea :: _ => SightingEnded
  | current_status_label_setText (TrackingSameMonkey c) :: _ =>
      SightingOngoing c
  | _ :: cs' => event_of cs'
  end.

Definition events (sched : Schedule) (self : Self)
  (rs : list DetectionResult) : list SightingEvent :=
  map event_of (trace sched self rs).

(** The lines sent to the serial port during one delivery. *)
Fixpoint commands (cs : list Call) : list Command :=
  match cs with
  | [] => []
  | arduino_write c :: cs' => c :: commands cs'
  | _ :: cs' => commands cs'
  end.

(** For every delivery, whether it took the slot from absent to
    present; [prev] is the presence before the first one. *)
Fixpoint rising (prev : bool) (present : list bool) : list bool :=
  match present with
  | [] => []
  | p :: ps => (negb prev && p) :: rising p ps
  end.

(** The number of absent-to-present transitions of a run. *)
Definition rising_edges (sched : Schedule) (self : Self)
  (rs : list DetectionResult) : nat :=
  count_occ bool_dec
    (rising (monkey_present self) (map monkey_present (states sched self rs)))
    true.

(** Acceptor of the specification's state machine over the pairs
    (detected, event) of a run; [present] is the state before the
    first pair. *)
Fixpoint accepts (present : bool) (run : list (bool * SightingEvent))
  : bool :=
  match run with
  | [] => true
  | (d, e) :: run' =>
      match present, d, e with
      | false, true, SightingStarted _ _ => accepts true run'
      | false, false, Idle => accepts false run'
      | true, true, SightingOngoing _ => accepts true run'
      | true, false, Idle => accepts true run'
      | true, false, SightingEnded => accepts false run'
      | _, _, _ => false
      end
  end.

(** Started and Ended events alternate; [open] tells whether a
    sighting is open before the first event. *)
Fixpoint alternates (open : bool) (es : list SightingEvent) : bool :=
  match es with
  | [] => true
  | SightingStarted _ _ :: es' => negb open && alternates true es'
  | SightingEnded :: es' => open && alternates false es'
  | _ :: es' => alternates open es'
  end.

(** *** Relations between two windows *)

(** Two windows that differ at most in a counter that is not in use
    (the monkey is absent). *)
Definition same_sighting (a b : Self) : Prop :=
  set_no_detection_frames 0 a = set_no_detection_frames 0 b
  /\ (monkey_present a = true -> no_detection_frames a = no_detection_frames b).

(** Two windows that agree on the debouncer state, on the gap and on
    whether the serial port is written to. *)
Definition same_debouncer (a b : Self) : Prop :=
  core a = core b
  /\ min_gap_frames a = min_gap_frames b
  /\ arduino_connected a && arduino a = arduino_connected b && arduino b.

(** A window without the recorded start time of the sighting. *)
Definition untimed (s : Self) : Self := set_detection_start_time None s.

(** A call without the clock reading it prints. *)
Definition unstamped (c : Call) : Call :=
  match c with
  | last_detection_label_setText _ => last_detection_label_setText EmptyString
  | log_text_append _ m => log_text_append EmptyString m
  | c => c
  end.

End DetectorApp.

(** ** monkey_detection_gui.py *)

Module DetectionGui.

(** The attributes of [MonkeyDetectionGUI] read or written by its
    [handle_detection]; [auto_save] is the state of the check box and
    [save_folder] the text of the folder field. *)
Record Self : Type := mkSelf {
  arduino : bool;
  arduino_connected : bool;
  detection_count : Z;
  last_detection_time : float;
  alert_cooldown : Z;
  auto_save : bool;
  save_folder : string
}.

(** [__init__]; the check box and the folder field as the window
    creates them are parameters. *)
Definition init (checked : bool) (folder : string) : Self := {|
  arduino := false;
  arduino_connected := false;
  detection_count := 0;
  last_detection_time := 0%float;
  alert_cooldown := 5;
  auto_save := checked;
  save_folder := folder
|}.

Definition set_arduino v c s :=
  mkSelf v c s.(detection_count) s.(last_detection_time)
    s.(alert_cooldown) s.(auto_save) s.(save_folder).
Definition set_detection_count v s :=
  mkSelf s.(arduino) s.(arduino_connected) v s.(last_detection_time)
    s.(alert_cooldown) s.(auto_save) s.(save_folder).
Definition set_last_detection_time v s :=
  mkSelf s.(arduino) s.(arduino_connected) s.(detection_count) v
    s.(alert_cooldown) s.(auto_save) s.(save_folder).

Inductive Call : Type :=
| detection_count_label_setText (count : Z)
| last_detection_label_setText (hms : string)
| arduino_write (c : Command)
| log_append (hms : string) (conf : float)   (* MONKEY DETECTED! conf *)
| mkdir (folder : string)
| imwrite (folder : string) (frame : ndarray).

(** The float an [int] is compared as; exact for the values the
    cool-down spin box allows (1 to 60). *)
Definition float_of_int (z : Z) : float :=
  if z <? 0 then PrimFloat.opp (PrimFloat.of_uint63 (Uint63.of_Z (- z)))
  else PrimFloat.of_uint63 (Uint63.of_Z z).

(** [handle_detection(self, detected, confidence, frame)]. *)
Definition handle_detection (r : DetectionResult) (clk : Clock)
  : Act Self Call unit :=
  if detected r then
    let current_time := time_time clk in
    self <- get ;;
    if PrimFloat.ltb (float_of_int (alert_cooldown self))
         (PrimFloat.sub current_time (last_detection_time self)) then
      modify (fun s => set_detection_count (detection_count s + 1) s) ;;
      modify (set_last_detection_time current_time) ;;
      self <- get ;;
      call (detection_count_label_setText (detection_count self)) ;;
      call (last_detection_label_setText (strftime_hms clk)) ;;
      when (arduino_connected self && arduino self)
        (call (arduino_write MONKEY_DETECTED)) ;;
      call (log_append (strftime_hms clk) (confidence r)) ;;
      when (auto_save self)
        (call (mkdir (save_folder self)) ;;
         call (imwrite (save_folder self) (frame r)))
    else
      ret tt
  else
    ret tt.

Fixpoint final (sched : Schedule) (self : Self) (rs : list DetectionResult)
  : Self :=
  match rs with
  | [] => self
  | r :: rs' =>
      final (later sched) (exec (handle_detection r (sched O)) self) rs'
  end.

Fixpoint trace (sched : Schedule) (self : Self) (rs : list DetectionResult)
  : list (list Call) :=
  match rs with
  | [] => []
  | r :: rs' =>
      calls (handle_detection r (sched O)) self
        :: trace (later sched) (exec (handle_detection r (sched O)) self) rs'
  end.

Fixpoint commands (cs : list Call) : list Command :=
  match cs with
  | [] => []
  | arduino_write c :: cs' => c :: commands cs'
  | _ :: cs' => commands cs'
  end.

(** Whether the binary64 value [f] is the positive integer [z]: its
    mantissa times two to its exponent is [z]. *)
Definition is_integer (f : float) (z : Z) : bool :=
  match FloatOps.Prim2SF f with
  | SpecFloat.S754_finite false m e =>
      (e <=? 0) && (Z.pos m =? z * 2 ^ (- e))
  | _ => false
  end.

(** The cool-down rule in words: a delivery is counted when it reports
    a detection and more than [cooldown] seconds have passed since the
    last counted detection, [last] being the time of that one; a counted
    detection becomes the last counted one.  For every delivery of a
    run, whether the rule counts it. *)
Fixpoint cooldown_counts (cooldown : Z) (last : float) (sched : Schedule)
  (rs : list DetectionResult) : list bool :=
  match rs with
  | [] => []
  | r :: rs' =>
      let now := time_time (sched O) in
      let counted :=
        detected r && (float_of_int cooldown <? now - last)%float in
      counted
        :: cooldown_counts cooldown (if counted then now else last)
             (later sched) rs'
  end.

(** The time of the last counted detection after a run, by the same
    rule. *)
Fixpoint cooldown_last (cooldown : Z) (last : float) (sched : Schedule)
  (rs : list DetectionResult) : float :=
  match rs with
  | [] => last
  | r :: rs' =>
      let now := time_time (sched O) in
      let counted :=
        detected r && (float_of_int cooldown <? now - last)%float in
      cooldown_last cooldown (if counted then now else last)
        (later sched) rs'
  end.

End DetectionGui.

(** ** The buzzer *)

Module Buzzer.

(** The lines written to the serial port switch the buzzer on and off
    in turn; [on] tells whether it is on before the first line. *)
Fixpoint alternates (on : bool) (cs : list Command) : bool :=
  match cs with
  | [] => true
  | MONKEY_DETECTED :: cs' => negb on && alternates true cs'
  | STOP_ALERT :: cs' => on && alternates false cs'
  end.


End Buzzer.

(** ** The detection threads *)

Module Worker.

(** A detection box: its confidence ([box.conf.item()]) and its corners
    ([map(int, box.xyxy[0])]). *)
Record Box : Type := mkBox {
  conf : float;
  xyxy : Z * Z * Z * Z
}.

(** What the model returns for a frame: for each result its [boxes],
    which may be [None]. *)
Definition Results : Type := list (option (list Box)).

Inductive Colour : Type := Green | Yellow | Orange.

(** The variables of the loop over the results: [monkey_detected],
    [max_confidence], and the boxes drawn on the frame so far. *)
Record Scan : Type := mkScan {
  monkey_detected : bool;
  max_confidence : float;
  drawn : list (Box * Colour)
}.

(** The body of [for box in boxes]; [max(a, b)] is [b] when [b > a] and
    [a] otherwise. *)
Definition scan_box (colour : float -> Colour) (threshold : float)
  (v : Scan) (b : Box) : Scan :=
  if (threshold <? conf b)%float then
    mkScan true
      (if (max_confidence v <? conf b)%float then conf b
       else max_confidence v)
      (drawn v ++ [(b, colour (conf b))])
  else v.

(** The body of [for result in results]. *)
Definition scan_result (colour : float -> Colour) (threshold : float)
  (v : Scan) (boxes : option (list Box)) : Scan :=
  match boxes with
  | None => v
  | Some bs => fold_left (scan_box colour threshold) bs v
  end.

Definition scan (colour : float -> Colour) (threshold : float)
  (results : Results) : Scan :=
  fold_left (scan_result colour threshold) results (mkScan false 0 []).

(** The colour of a box in monkey_detector_app.py: green above 0.8,
    yellow above 0.6, orange otherwise. *)
Definition proper_colour (c : float) : Colour :=
  if (0x1.999999999999ap-1 <? c)%float then Green
  else if (0x1.3333333333333p-1 <? c)%float then Yellow
  else Orange.

(** In monkey_detection_gui.py every box is green. *)
Definition plain_colour (c : float) : Colour := Green.

(** What one turn of a thread's loop does besides sleeping. *)
Inductive Action : Type :=
| update_camera_display (frame : ndarray) (overlay : list (Box * Colour))
| detection_result_emit (r : DetectionResult)
| print_detection_error.

(** One turn of [ProperDetectionThread.run]: [read] is the frame of
    [camera.read()] ([None] when [ret] is false) and [infer] the call of
    the model ([None] when it raises). *)
Definition proper_turn (threshold : float) (read : option ndarray)
  (infer : ndarray -> option Results) : list Action :=
  match read with
  | None => []
  | Some frame =>
      match infer frame with
      | None => [print_detection_error]
      | Some results =>
          let v := scan proper_colour threshold results in
          [update_camera_display frame (drawn v);
           detection_result_emit
             (mkResult (monkey_detected v) (max_confidence v) frame)]
      end
  end.

(** One turn of [DetectionThread.run] of monkey_detection_gui.py, where
    the model is called outside any [try] and the signal is emitted only
    on a detection. *)
Definition plain_turn (threshold : float) (read : option ndarray)
  (infer : ndarray -> Results) : list Action :=
  match read with
  | None => []
  | Some frame =>
      let v := scan plain_colour threshold (infer frame) in
      update_camera_display frame (drawn v)
      :: (if monkey_detected v
          then [detection_result_emit
                  (mkResult true (max_confidence v) frame)]
          else [])
  end.

(** The signals a turn emits, in order. *)
Fixpoint emitted (acts : list Action) : list DetectionResult :=
  match acts with
  | [] => []
  | detection_result_emit r :: acts' => r :: emitted acts'
  | _ :: acts' => emitted acts'
  end.

(** All the boxes of the results, in the order the loops visit them. *)
Fixpoint all_boxes (results : Results) : list Box :=
  match results with
  | [] => []
  | None :: results' => all_boxes results'
  | Some bs :: results' => bs ++ all_boxes results'
  end.

End Worker.

(** ** monkey_detector_app.py: the window and its buttons *)

Module Session.

(** The window: the attributes of [DetectorApp.Self], the threshold
    held by the detection thread object when the attribute
    [detection_thread] exists, and whether [camera_thread] exists. *)
Record Window : Type := mkWindow {
  attrs : DetectorApp.Self;
  detection_thread : option float;
  camera_thread : bool
}.

(** A new window. *)
Definition init : Window := {|
  attrs := DetectorApp.init;
  detection_thread := None;
  camera_thread := false
|}.

Definition set_attrs a w := mkWindow a w.(detection_thread) w.(camera_thread).
Definition set_detection_thread t w := mkWindow w.(attrs) t w.(camera_thread).
Definition set_camera_thread c w := mkWindow w.(attrs) w.(detection_thread) c.

Definition set_model v (s : DetectorApp.Self) :=
  DetectorApp.mkSelf v s.(DetectorApp.arduino) s.(DetectorApp.camera)
    s.(DetectorApp.detection_active) s.(DetectorApp.arduino_connected)
    s.(DetectorApp.confidence_threshold) s.(DetectorApp.detection_count)
    s.(DetectorApp.monkey_present) s.(DetectorApp.detection_start_time)
    s.(DetectorApp.no_detection_frames) s.(DetectorApp.min_gap_frames).
Definition set_arduino v (s : DetectorApp.Self) :=
  DetectorApp.mkSelf s.(DetectorApp.model) v s.(DetectorApp.camera)
    s.(DetectorApp.detection_active) s.(DetectorApp.arduino_connected)
    s.(DetectorApp.confidence_threshold) s.(DetectorApp.detection_count)
    s.(DetectorApp.monkey_present) s.(DetectorApp.detection_start_time)
    s.(DetectorApp.no_detection_frames) s.(DetectorApp.min_gap_frames).
Definition set_camera v (s : DetectorApp.Self) :=
  DetectorApp.mkSelf s.(DetectorApp.model) s.(DetectorApp.arduino) v
    s.(DetectorApp.detection_active) s.(DetectorApp.arduino_connected)
    s.(DetectorApp.confidence_threshold) s.(DetectorApp.detection_count)
    s.(DetectorApp.monkey_present) s.(DetectorApp.detection_start_time)
    s.(DetectorApp.no_detection_frames) s.(DetectorApp.min_gap_frames).
Definition set_arduino_connected v (s : DetectorApp.Self) :=
  DetectorApp.mkSelf s.(DetectorApp.model) s.(DetectorApp.arduino)
    s.(DetectorApp.camera) s.(DetectorApp.detection_active) v
    s.(DetectorApp.confidence_threshold) s.(DetectorApp.detection_count)
    s.(DetectorApp.monkey_present) s.(DetectorApp.detection_start_time)
    s.(DetectorApp.no_detection_frames) s.(DetectorApp.min_gap_frames).
Definition set_confidence_threshold v (s : DetectorApp.Self) :=
  DetectorApp.mkSelf s.(DetectorApp.model) s.(DetectorApp.arduino)
    s.(DetectorApp.camera) s.(DetectorApp.detection_active)
    s.(DetectorApp.arduino_connected) v s.(DetectorApp.detection_count)
    s.(DetectorApp.monkey_present) s.(DetectorApp.detection_start_time)
    s.(DetectorApp.no_detection_frames) s.(DetectorApp.min_gap_frames).

(** Messages given to [log_message] and [show_error] by the buttons;
    [show_error] logs its message after the prefix ERROR. *)
Inductive Text : Type :=
| CameraStarted
| FailedToOpenCamera
| CameraError
| AllOperationsStopped
| ArduinoConnectedOn (port : string)
| ArduinoConnectionFailed
| BuzzerTestSent
| BuzzerTestFailed
| ArduinoNotConnected
| UltralyticsNotInstalled
| CustomModelLoaded
| ModelLoaded (file_path : string)
| FailedToLoadModel
| ERROR (t : Text).

(** Lines written to the serial port by the buttons. *)
Inductive Line : Type := STATUS | TEST.

Inductive Call : Type :=
| slot (c : DetectorApp.Call)
| log_text_append (hms : string) (t : Text)
| critical_box (t : Text)
| confidence_label_setText (threshold : float)
| camera_thread_start
| camera_thread_stop
| detection_thread_stop
| camera_release
| camera_status_label_setText (connected : bool)
| current_status_label_setText_stopped
| camera_label_reset
| system_status_label_setText_ready
| arduino_status_label_setText (port : string)
| model_status_label_setText (custom : bool)
| serial_write (l : Line).

Definition log_message (clk : Clock) (t : Text) : Act Window Call unit :=
  call (log_text_append (strftime_hms clk) t).

Definition show_error (clk : Clock) (t : Text) : Act Window Call unit :=
  call (critical_box t) ;;
  log_message clk (ERROR t).

(** A method of [DetectorApp] run on the attributes of the window. *)
Definition lift (m : Act DetectorApp.Self DetectorApp.Call unit)
  : Act Window Call unit :=
  fun w =>
    let '(u, a, cs) := m (attrs w) in
    (u, set_attrs a w, map slot cs).

Definition change (f : DetectorApp.Self -> DetectorApp.Self)
  : Act Window Call unit :=
  modify (fun w => set_attrs (f (attrs w)) w).

(** [handle_detection], the slot of the detection thread's signal. *)
Definition handle_detection (r : DetectionResult) (clk : Clock)
  : Act Window Call unit :=
  lift (DetectorApp.handle_detection r clk).

(** [start_detection]: as [DetectorApp.start_detection], which records
    the creation of the thread as a call; the thread object, with the
    threshold it was given, is kept in [detection_thread]. *)
Definition start_detection (clk : Clock) : Act Window Call unit :=
  self <- get ;;
  lift (DetectorApp.start_detection clk) ;;
  when (DetectorApp.model (attrs self)
        && match DetectorApp.camera (attrs self) with
           | Some opened => opened
           | None => false
           end)
    (modify (set_detection_thread
               (Some (DetectorApp.confidence_threshold (attrs self))))).

(** [update_confidence(value)], the slot of the slider. *)
Definition update_confidence (value : Z) : Act Window Call unit :=
  change (set_confidence_threshold
            (DetectionGui.float_of_int value / 100)%float) ;;
  self <- get ;;
  call (confidence_label_setText
          (DetectorApp.confidence_threshold (attrs self))).

(** What [cv2.VideoCapture(0)] does. *)
Inductive Capture : Type := capture_raises | capture_closed | capture_opened.

(** [start_camera]. *)
Definition start_camera (cap : Capture) (clk : Clock)
  : Act Window Call unit :=
  match cap with
  | capture_raises => show_error clk CameraError
  | capture_closed =>
      change (set_camera (Some false)) ;;
      show_error clk FailedToOpenCamera
  | capture_opened =>
      change (set_camera (Some true)) ;;
      modify (set_camera_thread true) ;;
      call camera_thread_start ;;
      call (camera_status_label_setText true) ;;
      log_message clk CameraStarted
  end.

(** [stop_all].  A failing write of STOP_ALERT is swallowed. *)
Definition stop_all (clk : Clock) : Act Window Call unit :=
  change (DetectorApp.set_detection_active false) ;;
  change (DetectorApp.set_monkey_present false) ;;
  change (DetectorApp.set_no_detection_frames 0) ;;
  self <- get ;;
  when (match detection_thread self with Some _ => true | None => false end)
    (call detection_thread_stop) ;;
  when (camera_thread self) (call camera_thread_stop) ;;
  when (match DetectorApp.camera (attrs self) with
        | Some _ => true
        | None => false
        end)
    (call camera_release ;; change (set_camera None)) ;;
  when (DetectorApp.arduino_connected (attrs self)
        && DetectorApp.arduino (attrs self))
    (call (slot (DetectorApp.arduino_write STOP_ALERT))) ;;
  call (camera_status_label_setText false) ;;
  call current_status_label_setText_stopped ;;
  call camera_label_reset ;;
  call system_status_label_setText_ready ;;
  log_message clk AllOperationsStopped.

(** What opening the serial port and writing STATUS to it do. *)
Inductive Serial : Type := serial_raises | status_raises | serial_ok.

(** [connect_arduino]; [port] is the text of the port box. *)
Definition connect_arduino (port : string) (ser : Serial) (clk : Clock)
  : Act Window Call unit :=
  match ser with
  | serial_raises => show_error clk ArduinoConnectionFailed
  | status_raises =>
      change (set_arduino true) ;;
      show_error clk ArduinoConnectionFailed
  | serial_ok =>
      change (set_arduino true) ;;
      call (serial_write STATUS) ;;
      change (set_arduino_connected true) ;;
      call (arduino_status_label_setText port) ;;
      log_message clk (ArduinoConnectedOn port)
  end.

(** [test_buzzer]; [written] tells whether the write of TEST returns. *)
Definition test_buzzer (written : bool) (clk : Clock)
  : Act Window Call unit :=
  self <- get ;;
  if DetectorApp.arduino_connected (attrs self)
     && DetectorApp.arduino (attrs self) then
    if written then
      call (serial_write TEST) ;;
      log_message clk BuzzerTestSent
    else
      show_error clk BuzzerTestFailed
  else
    show_error clk ArduinoNotConnected.

(** What [load_model] finds: whether ultralytics was imported, whether
    the trained weights exist, the file chosen in the dialog (empty when
    cancelled) and whether [YOLO(...)] raises. *)
Record Loading : Type := mkLoading {
  yolo_available : bool;
  trained_exists : bool;
  chosen : string;
  yolo_raises : bool
}.

(** [load_model]. *)
Definition load_model (env : Loading) (clk : Clock) : Act Window Call unit :=
  if negb (yolo_available env) then
    show_error clk UltralyticsNotInstalled
  else if trained_exists env then
    if yolo_raises env then show_error clk FailedToLoadModel
    else
      change (set_model true) ;;
      call (model_status_label_setText true) ;;
      log_message clk CustomModelLoaded
  else
    match chosen env with
    | EmptyString => ret tt
    | file_path =>
        if yolo_raises env then show_error clk FailedToLoadModel
        else
          change (set_model true) ;;
          call (model_status_label_setText false) ;;
          log_message clk (ModelLoaded file_path)
    end.

(** What can happen to the window: a signal of the detection thread or
    a button, with what the outside world answers. *)
Inductive Op : Type :=
| Deliver (r : DetectionResult)
| UpdateConfidence (value : Z)
| StartCamera (cap : Capture)
| StartDetection
| StopAll
| ConnectArduino (port : string) (ser : Serial)
| TestBuzzer (written : bool)
| LoadModel (env : Loading).

Definition perform (op : Op) (clk : Clock) : Act Window Call unit :=
  match op with
  | Deliver r => handle_detection r clk
  | UpdateConfidence value => update_confidence value
  | StartCamera cap => start_camera cap clk
  | StartDetection => start_detection clk
  | StopAll => stop_all clk
  | ConnectArduino port ser => connect_arduino port ser clk
  | TestBuzzer written => test_buzzer written clk
  | LoadModel env => load_model env clk
  end.

(** The window after a sequence of operations, the k-th one at clock
    reading [sched k]. *)
Fixpoint after (sched : Schedule) (w : Window) (ops : list Op) : Window :=
  match ops with
  | [] => w
  | op :: ops' => after (later sched) (exec (perform op (sched O)) w) ops'
  end.

(** The number of operations of a run that deliver a detection while
    the monkey is absent. *)
Fixpoint new_sightings (sched : Schedule) (w : Window) (ops : list Op)
  : nat :=
  match ops with
  | [] => O
  | op :: ops' =>
      (match op with
       | Deliver r =>
           if detected r && negb (DetectorApp.monkey_present (attrs w))
           then 1%nat else O
       | _ => O
       end
       + new_sightings (later sched) (exec (perform op (sched O)) w) ops')%nat
  end.

(** Whether [load_model] ends with a model loaded. *)
Definition loads (env : Loading) : bool :=
  yolo_available env
  && negb (yolo_raises env)
  && (trained_exists env
      || match chosen env with EmptyString => false | _ => true end).

(** The slider of the threshold goes from 10 to 95. *)
Definition slider_values : list Z := map Z.of_nat (seq 10 86).

(** The threshold [update_confidence] computes from a slider value. *)
Definition threshold_of (value : Z) : float :=
  (DetectionGui.float_of_int value / 100)%float.

(** What every window reached from a new one satisfies. *)
Definition well_formed (w : Window) : Prop :=
  let s := attrs w in
  1 <= DetectorApp.min_gap_frames s
  /\ 0 <= DetectorApp.detection_count s
  /\ 0 <= DetectorApp.no_detection_frames s
  /\ (DetectorApp.monkey_present s = true ->
      DetectorApp.no_detection_frames s < DetectorApp.min_gap_frames s
      /\ DetectorApp.detection_start_time s <> None).

End Session.

(** ** The hyper-parameter search (Hyperparameter Tuning.py) *)

Module Tuning.

(** The dictionary [{'lr0': lr, 'batch': batch, 'epochs': epochs}]. *)
Record Params : Type := mkParams {
  lr0 : float;
  batch : Z;
  epochs : Z
}.

(** [search_space]; 0.001, 0.01 and 0.1 are written as the binary64
    values Python reads them as. *)
Definition search_space_lr0 : list float :=
  [0x1.0624dd2f1a9fcp-10; 0x1.47ae147ae147bp-7; 0x1.999999999999ap-4]%float.
Definition search_space_batch : list Z := [8; 16; 32].
Definition search_space_epochs : list Z := [50; 100; 200].

(** [model.train(...)] followed by the reading of its mAP50: the same
    model object is trained again at every turn, so the result may depend
    on how many trainings came before. *)
Definition Trainer : Type := nat -> Params -> float.

(** The variables of the loops: the number of trainings done,
    [best_map] and [best_params] (the empty dictionary is [None]). *)
Record Search : Type := mkSearch {
  trained : nat;
  best_map : float;
  best_params : option Params
}.

(** The body of the innermost loop. *)
Definition try_params (train : Trainer) (p : Params) (s : Search) : Search :=
  let map_score := train (trained s) p in
  if (best_map s <? map_score)%float
  then mkSearch (S (trained s)) map_score (Some p)
  else mkSearch (S (trained s)) (best_map s) (best_params s).

(** The three loops. *)
Definition search (train : Trainer) : Search :=
  fold_left
    (fun s lr =>
       fold_left
         (fun s b =>
            fold_left
              (fun s e => try_params train (mkParams lr b e) s)
              search_space_epochs s)
         search_space_batch s)
    search_space_lr0 (mkSearch O 0 None).

(** [tune_hyperparameters()], which returns [best_params]. *)
Definition tune_hyperparameters (train : Trainer) : option Params :=
  best_params (search train).

(** The combinations in the order the loops visit them. *)
Definition grid : list Params :=
  flat_map (fun lr =>
    flat_map (fun b => map (fun e => mkParams lr b e) search_space_epochs)
      search_space_batch)
    search_space_lr0.

(** The trainings of a search with their results. *)
Definition trials (train : Trainer) : list (Params * float) :=
  map (fun kp => (snd kp, train (fst kp) (snd kp)))
    (combine (seq 0 (length grid)) grid).

(** The outcome of the trials so far: the best result and its
    combination. *)
Definition pick (b : float * option Params) (t : Params * float)
  : float * option Params :=
  if (fst b <? snd t)%float then (snd t, Some (fst t)) else b.

End Tuning.

(** ** test_your_model.py *)

Module ModelTest.

(** What one turn of the loop meets: [ret] of [cap.read()], the
    confidences of [results[0].boxes] ([None] when there are no boxes)
    and the value of [cv2.waitKey(1)]. *)
Record Turn : Type := mkTurn {
  ret : bool;
  boxes : option (list float);
  wait_key : Z
}.

(** What the loop prints, shows and writes. *)
Inductive Output : Type :=
| print_failed_webcam
| print_detected (detection_count : Z) (confs : list float)
| imshow
| imwrite (detection_count : Z)   (* detection_result_<count>.jpg *)
| print_saved (detection_count : Z).

(** [boxes is not None and len(boxes) > 0]. *)
Definition has_boxes (t : Turn) : bool :=
  match boxes t with
  | Some (_ :: _) => true
  | _ => false
  end.

(** The key of a turn: [cv2.waitKey(1) & 0xFF]. *)
Definition key (t : Turn) : Z := Z.land (wait_key t) 255.

(** The loop [while True], over the turns the outside world provides:
    the count, the outputs, and whether the loop was left ([break]). *)
Fixpoint loop (detection_count : Z) (turns : list Turn)
  : Z * list Output * bool :=
  match turns with
  | [] => (detection_count, [], false)
  | t :: turns' =>
      if negb (ret t) then (detection_count, [print_failed_webcam], true)
      else
        let detection_count :=
          if has_boxes t then detection_count + 1 else detection_count in
        let shown :=
          (if has_boxes t
           then [print_detected detection_count
                   (match boxes t with Some cs => cs | None => [] end)]
           else [])
          ++ [imshow] in
        if key t =? 113 then (detection_count, shown, true)
        else
          let saved :=
            if key t =? 115
            then [imwrite detection_count; print_saved detection_count]
            else [] in
          let '(n, out, stopped) := loop detection_count turns' in
          (n, shown ++ saved ++ out, stopped)
  end.

(** The turns the loop goes through: up to the first failed read,
    which is not processed, or up to the first turn whose key is q,
    which is. *)
Fixpoint processed (turns : list Turn) : list Turn :=
  match turns with
  | [] => []
  | t :: turns' =>
      if negb (ret t) then []
      else if key t =? 113 then [t]
      else t :: processed turns'
  end.

End ModelTest.

(** ** Properties of monkey_detector_app.py *)

Module DetectorAppFacts.

Import DetectorApp.

(** *** One delivery, branch by branch *)

Ltac by_branches r s :=
  destruct r as [[|] ? ?];
  destruct s as [? [|] ? ? [|] ? ? [|] ? ndf gap];
  cbv -[Z.add Z.leb]; try reflexivity;
  destruct (gap <=? ndf + 1); reflexivity.

Lemma exec_handle_detection (r : DetectionResult) (clk : Clock) (s : Self) :
  exec (handle_detection r clk) s =
  if detected r then
    if monkey_present s then set_no_detection_frames 0 s
    else set_detection_start_time (Some (time_time clk))
           (set_detection_count (detection_count s + 1)
              (set_monkey_present true (set_no_detection_frames 0 s)))
  else
    if monkey_present s && (min_gap_frames s <=? no_detection_frames s + 1)
    then set_monkey_present false
           (set_no_detection_frames (no_detection_frames s + 1) s)
    else set_no_detection_frames (no_detection_frames s + 1) s.
Proof. by_branches r s. Qed.

Lemma calls_handle_detection (r : DetectionResult) (clk : Clock) (s : Self) :
  calls (handle_detection r clk) s =
  let wired := arduino_connected s && arduino s in
  if detected r then
    if monkey_present s then
      [current_status_label_setText (TrackingSameMonkey (confidence r))]
    else
      [detection_count_label_setText (detection_count s + 1);
       current_status_label_setText (NewMonkeyDetected (confidence r));
       last_detection_label_setText (strftime_hms clk)]
      ++ (if wired then [arduino_write MONKEY_DETECTED] else [])
      ++ [log_text_append (strftime_hms clk)
            (NewMonkeyCount (detection_count s + 1) (confidence r))]
  else
    if monkey_present s && (min_gap_frames s <=? no_detection_frames s + 1)
    then
      [current_status_label_setText Monitoring]
      ++ (if wired then [arduino_write STOP_ALERT] else [])
      ++ [log_text_append (strftime_hms clk) MonkeyLeftArea]
    else if monkey_present s then []
    else [current_status_label_setText Monitoring].
Proof. by_branches r s. Qed.

Lemma event_handle_detection (r : DetectionResult) (clk : Clock) (s : Self) :
  event_of (calls (handle_detection r clk) s) =
  if detected r then
    if monkey_present s then SightingOngoing (confidence r)
    else SightingStarted (detection_count s + 1) (confidence r)
  else
    if monkey_present s && (min_gap_frames s <=? no_detection_frames s + 1)
    then SightingEnded
    else Idle.
Proof. by_branches r s. Qed.

Lemma commands_handle_detection (r : DetectionResult) (clk : Clock) (s : Self) :
  commands (calls (handle_detection r clk) s) =
  if arduino_connected s && arduino s then
    if detected r then
      if monkey_present s then [] else [MONKEY_DETECTED]
    else
      if monkey_present s && (min_gap_frames s <=? no_detection_frames s + 1)
      then [STOP_ALERT]
      else []
  else [].
Proof. by_branches r s. Qed.


(** The count moves by one exactly on an absent-to-present delivery. *)
Lemma detection_count_exec (r : DetectionResult) (clk : Clock) (s : Self) :
  detection_count (exec (handle_detection r clk) s) =
  detection_count s
  + (if negb (monkey_present s)
        && monkey_present (exec (handle_detection r clk) s)
     then 1 else 0).
Proof.
  rewrite exec_handle_detection.
  destruct r as [[|] ? ?], s as [? ? ? ? ? ? ? [|] ? ndf gap]; cbn;
    try lia; destruct (gap <=? ndf + 1); cbn; lia.
Qed.

Lemma monkey_present_exec (r : DetectionResult) (clk : Clock) (s : Self) :
  monkey_present (exec (handle_detection r clk) s) =
  if detected r then true
  else if monkey_present s && (min_gap_frames s <=? no_detection_frames s + 1)
       then false
       else monkey_present s.
Proof.
  rewrite exec_handle_detection.
  destruct r as [[|] ? ?], s as [? ? ? ? ? ? ? [|] ? ndf gap]; cbn;
    try reflexivity; destruct (gap <=? ndf + 1); reflexivity.
Qed.

(** *** Runs *)

Lemma detection_count_final (rs : list DetectionResult) :
  forall (sched : Schedule) (s : Self),
    detection_count (final sched s rs) =
    detection_count s + Z.of_nat (rising_edges sched s rs).
Proof.
  induction rs as [|r rs IH]; intros sched s.
  - unfold rising_edges. cbn. lia.
  - cbn [final]. rewrite IH, detection_count_exec.
    unfold rising_edges. cbn [states map rising count_occ].
    set (s' := exec (handle_detection r (sched O)) s).
    destruct (negb (monkey_present s) && monkey_present s');
      destruct (bool_dec _ true) as [E|E]; try congruence; lia.
Qed.

(** A run of non-detections that stays below the gap only moves the
    counter, and makes no call at all. *)
Lemma within_gap (rs : list DetectionResult) :
  forall (sched : Schedule) (s : Self),
    monkey_present s = true ->
    forallb (fun r => negb (detected r)) rs = true ->
    no_detection_frames s + Z.of_nat (length rs) < min_gap_frames s ->
    final sched s rs
      = set_no_detection_frames
          (no_detection_frames s + Z.of_nat (length rs)) s
    /\ map monkey_present (states sched s rs) = repeat true (length rs)
    /\ trace sched s rs = repeat [] (length rs).
Proof.
  induction rs as [|r rs IH]; intros sched s Hp Hf Hlt.
  - cbn. rewrite Z.add_0_r. destruct s; repeat split.
  - cbn [forallb] in Hf. apply andb_true_iff in Hf as [Hr Hf].
    apply negb_true_iff in Hr.
    cbn [length] in *. rewrite Nat2Z.inj_succ in *.
    assert (Hb : (min_gap_frames s <=? no_detection_frames s + 1) = false)
      by (apply Z.leb_gt; lia).
    cbn [final states trace map repeat].
    rewrite calls_handle_detection, exec_handle_detection.
    cbv zeta. rewrite Hr, Hp, Hb. cbn [andb].
    destruct (IH (later sched)
                (set_no_detection_frames (no_detection_frames s + 1) s))
      as (Hfin & Hst & Htr).
    + destruct s; exact Hp.
    + exact Hf.
    + destruct s; cbn in *; lia.
    + rewrite Hfin, Hst, Htr. repeat split.
      * destruct s; unfold set_no_detection_frames; cbn. f_equal. lia.
      * destruct s; cbn in *. now rewrite Hp.
Qed.

(** A run of non-detections whose length is exactly what is missing to
    the gap ends the sighting at its last delivery, and not before. *)
Lemma departure_at_gap (rs : list DetectionResult) :
  forall (sched : Schedule) (s : Self),
    monkey_present s = true ->
    forallb (fun r => negb (detected r)) rs = true ->
    rs <> [] ->
    no_detection_frames s + Z.of_nat (length rs) = min_gap_frames s ->
    final sched s rs
      = set_monkey_present false (set_no_detection_frames (min_gap_frames s) s)
    /\ map monkey_present (states sched s rs)
       = repeat true (pred (length rs)) ++ [false]
    /\ events sched s rs = repeat Idle (pred (length rs)) ++ [SightingEnded]
    /\ concat (map commands (trace sched s rs))
       = (if arduino_connected s && arduino s then [STOP_ALERT] else [])
    /\ trace sched s rs
       = repeat [] (pred (length rs))
         ++ [[current_status_label_setText Monitoring]
             ++ (if arduino_connected s && arduino s
                 then [arduino_write STOP_ALERT] else [])
             ++ [log_text_append (strftime_hms (sched (pred (length rs))))
                   MonkeyLeftArea]].
Proof.
  unfold events.
  induction rs as [|r rs IH]; intros sched s Hp Hf Hne Hlen; [congruence|].
  cbn [forallb] in Hf. apply andb_true_iff in Hf as [Hr Hf].
  apply negb_true_iff in Hr.
  cbn [final states trace map concat].
  rewrite event_handle_detection, commands_handle_detection,
    calls_handle_detection, exec_handle_detection.
  cbv zeta. rewrite Hr, Hp.
  destruct rs as [|r' rs].
  - assert (Hb : (min_gap_frames s <=? no_detection_frames s + 1) = true)
      by (apply Z.leb_le; cbn in Hlen; lia).
    rewrite Hb. cbn. rewrite app_nil_r.
    destruct s; cbn in *. repeat split. do 2 f_equal. lia.
  - assert (Hb : (min_gap_frames s <=? no_detection_frames s + 1) = false).
    { apply Z.leb_gt. cbn [length] in Hlen.
      rewrite !Nat2Z.inj_succ in Hlen. lia. }
    rewrite Hb. cbn [andb].
    destruct (IH (later sched)
                (set_no_detection_frames (no_detection_frames s + 1) s))
      as (Hfin & Hst & Hev & Hcmd & Htr).
    + destruct s; exact Hp.
    + exact Hf.
    + discriminate.
    + destruct s; cbn in *. lia.
    + rewrite Hfin, Hst, Hev, Hcmd, Htr.
      destruct s; cbn in *; subst. repeat split.
      now rewrite Tauto.if_same.
Qed.

(** Detections delivered while the monkey is present and the counter
    is clear change nothing. *)
Lemma detections_while_present (rs : list DetectionResult) :
  forall (sched : Schedule) (s : Self),
    monkey_present s = true ->
    no_detection_frames s = 0 ->
    forallb detected rs = true ->
    final sched s rs = s
    /\ states sched s rs = repeat s (length rs)
    /\ trace sched s rs
       = map (fun r => [current_status_label_setText
                          (TrackingSameMonkey (confidence r))]) rs.
Proof.
  induction rs as [|r rs IH]; intros sched s Hp Hn Hf; [repeat split|].
  cbn [forallb] in Hf. apply andb_true_iff in Hf as [Hr Hf].
  cbn [final states trace map length repeat].
  rewrite calls_handle_detection, exec_handle_detection.
  cbv zeta. rewrite Hr, Hp.
  assert (Hs : set_no_detection_frames 0 s = s)
    by (destruct s; cbn in *; subst; reflexivity).
  rewrite Hs.
  destruct (IH (later sched) s Hp Hn Hf) as (Hfin & Hst & Htr).
  rewrite Hfin, Hst, Htr. repeat split.
Qed.

(** Non-detections delivered while the monkey is absent move the
    counter and show the monitoring status, nothing else. *)
Lemma misses_while_absent (rs : list DetectionResult) :
  forall (sched : Schedule) (s : Self),
    monkey_present s = false ->
    forallb (fun r => negb (detected r)) rs = true ->
    final sched s rs
      = set_no_detection_frames
          (no_detection_frames s + Z.of_nat (length rs)) s
    /\ trace sched s rs
       = repeat [current_status_label_setText Monitoring] (length rs).
Proof.
  induction rs as [|r rs IH]; intros sched s Hp Hf.
  - cbn. rewrite Z.add_0_r. destruct s; repeat split.
  - cbn [forallb] in Hf. apply andb_true_iff in Hf as [Hr Hf].
    apply negb_true_iff in Hr.
    cbn [final trace length repeat].
    rewrite calls_handle_detection, exec_handle_detection.
    cbv zeta. rewrite Hr, Hp. cbn [andb].
    destruct (IH (later sched)
                (set_no_detection_frames (no_detection_frames s + 1) s))
      as (Hfin & Htr).
    + destruct s; exact Hp.
    + exact Hf.
    + rewrite Hfin, Htr. split; [|reflexivity].
      destruct s; unfold set_no_detection_frames; cbn. f_equal. lia.
Qed.

Lemma same_sighting_step (r : DetectionResult) (clk : Clock) (a b : Self) :
  same_sighting a b ->
  same_sighting (exec (handle_detection r clk) a)
                (exec (handle_detection r clk) b)
  /\ calls (handle_detection r clk) a = calls (handle_detection r clk) b.
Proof.
  intros [Hrest Hctr].
  rewrite !calls_handle_detection, !exec_handle_detection.
  destruct a as [? ? ? ? ? ? ? pa ? na ?], b as [? ? ? ? ? ? ? pb ? nb ?].
  unfold same_sighting, set_no_detection_frames in *. cbn in *.
  injection Hrest as -> -> -> -> -> -> -> -> -> ->.
  destruct (detected r), pb; cbn;
    try (rewrite (Hctr eq_refl); destruct (_ <=? _); cbn);
    repeat split; intros; congruence.
Qed.

Lemma same_sighting_run (rs : list DetectionResult) :
  forall (sched : Schedule) (a b : Self),
    same_sighting a b ->
    same_sighting (final sched a rs) (final sched b rs)
    /\ trace sched a rs = trace sched b rs
    /\ map (set_no_detection_frames 0) (states sched a rs)
       = map (set_no_detection_frames 0) (states sched b rs).
Proof.
  induction rs as [|r rs IH]; intros sched a b Hab;
    [cbn; split; [exact Hab | split; reflexivity]|].
  destruct (same_sighting_step r (sched O) a b Hab) as [Hab' Hc].
  destruct (IH (later sched) _ _ Hab') as (Hfin & Htr & Hst).
  cbn [final trace states map]. rewrite Hc, Htr, Hst.
  repeat split; try apply Hfin. f_equal. apply Hab'.
Qed.

(** *** Sighting count *)

(** C1. For every run of the slot the detection count moves by
    exactly one on a delivery with [detected] true made while the
    monkey is absent, and is left as it is by every other delivery (in
    particular it never goes down, and never moves while the monkey is
    present); so after any sequence of signals it is the count before
    plus the number of absent-to-present transitions of that run, and
    from the state of a new window it is that number. *)
Theorem detection_count_is_number_of_rising_edges
  (sched : Schedule) (s : Self) (rs : list DetectionResult)
  (r : DetectionResult) (clk : Clock) :
  detection_count (exec (handle_detection r clk) s)
    = detection_count s
      + (if detected r && negb (monkey_present s) then 1 else 0)
  /\ detection_count (final sched s rs)
     = detection_count s + Z.of_nat (rising_edges sched s rs)
  /\ detection_count (final sched init rs)
     = Z.of_nat (rising_edges sched init rs).
Proof.
  split; [|split].
  - rewrite exec_handle_detection.
    destruct r as [[|] ? ?], s as [? ? ? ? ? ? ? [|] ? ndf gap]; cbn;
      try lia; destruct (gap <=? ndf + 1); cbn; lia.
  - apply detection_count_final.
  - rewrite detection_count_final. reflexivity.
Qed.

(** *** Gap tolerance *)

(** C2. With a gap of 30 frames, from a window where the monkey is
    present and the counter is 0, thirty deliveries with [detected]
    false in a row leave the monkey present after each of the first 29
    and absent after the 30th; the first 29 stand for Idle and the
    30th for the one SightingEnded of the run, which is also the only
    delivery that writes STOP_ALERT (when the Arduino is connected). *)
Theorem thirtieth_miss_ends_the_sighting
  (sched : Schedule) (s : Self) (rs : list DetectionResult) :
  monkey_present s = true ->
  no_detection_frames s = 0 ->
  min_gap_frames s = 30 ->
  length rs = 30%nat ->
  forallb (fun r => negb (detected r)) rs = true ->
  map monkey_present (states sched s rs) = repeat true 29 ++ [false]
  /\ monkey_present (final sched s (firstn 29 rs)) = true
  /\ monkey_present (final sched s rs) = false
  /\ events sched s rs = repeat Idle 29 ++ [SightingEnded]
  /\ concat (map commands (trace sched s rs))
     = (if arduino_connected s && arduino s then [STOP_ALERT] else [])
  /\ trace sched s rs
     = repeat [] 29
       ++ [[current_status_label_setText Monitoring]
           ++ (if arduino_connected s && arduino s
               then [arduino_write STOP_ALERT] else [])
           ++ [log_text_append (strftime_hms (sched 29%nat)) MonkeyLeftArea]].
Proof.
  intros Hp Hn Hg Hlen Hf.
  destruct (departure_at_gap rs sched s Hp Hf)
    as (Hfin & Hst & Hev & Hcmd & Htr).
  - intros ->. discriminate.
  - rewrite Hn, Hg, Hlen. reflexivity.
  - rewrite Hlen in *. cbn [pred] in *.
    repeat split; try assumption.
    + destruct (within_gap (firstn 29 rs) sched s Hp) as (H29 & _).
      * rewrite <- (firstn_skipn 29 rs), forallb_app in Hf.
        now apply andb_true_iff in Hf.
      * rewrite length_firstn, Hlen, Hn, Hg. reflexivity.
      * rewrite H29. destruct s; exact Hp.
    + rewrite Hfin. destruct s; reflexivity.
Qed.

Lemma thirtieth_miss_ends_the_sighting_witness :
  let sched : Schedule := fun _ => mkClock 0 EmptyString in
  let s := set_monkey_present true init in
  let rs := repeat (mkResult false 0 []) 30 in
  map monkey_present (states sched s rs) = repeat true 29 ++ [false]
  /\ monkey_present (final sched s (firstn 29 rs)) = true
  /\ monkey_present (final sched s rs) = false
  /\ events sched s rs = repeat Idle 29 ++ [SightingEnded]
  /\ concat (map commands (trace sched s rs))
     = (if arduino_connected s && arduino s then [STOP_ALERT] else [])
  /\ trace sched s rs
     = repeat [] 29
       ++ [[current_status_label_setText Monitoring]
           ++ (if arduino_connected s && arduino s
               then [arduino_write STOP_ALERT] else [])
           ++ [log_text_append (strftime_hms (sched 29%nat)) MonkeyLeftArea]].
Proof.
  intros sched s rs.
  apply (thirtieth_miss_ends_the_sighting sched s rs); reflexivity.
Defined.

(** The claim that the transition to absent clears the counter fails:
    with the gap at 30 and the counter at 29, the next non-detection
    ends the sighting and leaves the counter at 30. *)
Lemma departure_keeps_the_counter :
  let s := set_no_detection_frames 29 (set_monkey_present true init) in
  let s' := exec (handle_detection (mkResult false 0 []) (mkClock 0 EmptyString)) s in
  monkey_present s = true
  /\ min_gap_frames s <= no_detection_frames s + 1
  /\ monkey_present s' = false
  /\ no_detection_frames s' = 30
  /\ ~ (monkey_present s' = false /\ no_detection_frames s' = 0).
Proof.
  cbv zeta.
  split; [reflexivity|]. split; [vm_compute; discriminate|].
  split; [reflexivity|]. split; [reflexivity|].
  intros [_ H]. vm_compute in H. discriminate H.
Qed.

(** C3, as the code has it.  On every transition from present to
    absent (a delivery with [detected] false while the monkey is
    present and the incremented counter has reached the gap) the slot
    sets [monkey_present] to false, stands for SightingEnded, and
    leaves [no_detection_frames] at its incremented value; the counter
    is cleared by the next delivery with [detected] true. *)
Theorem departure_clears_presence_only
  (s : Self) (r r' : DetectionResult) (clk clk' : Clock) :
  detected r = false ->
  monkey_present s = true ->
  min_gap_frames s <= no_detection_frames s + 1 ->
  detected r' = true ->
  let s' := exec (handle_detection r clk) s in
  s' = set_monkey_present false
         (set_no_detection_frames (no_detection_frames s + 1) s)
  /\ monkey_present s' = false
  /\ no_detection_frames s' = no_detection_frames s + 1
  /\ event_of (calls (handle_detection r clk) s) = SightingEnded
  /\ no_detection_frames (exec (handle_detection r' clk') s') = 0.
Proof.
  intros Hr Hp Hg Hr'. cbv zeta.
  rewrite event_handle_detection, !exec_handle_detection, Hr, Hr', Hp.
  apply Z.leb_le in Hg. rewrite Hg.
  destruct s; cbn. repeat split.
Qed.

Lemma departure_clears_presence_only_witness :
  let s := set_no_detection_frames 29 (set_monkey_present true init) in
  let r := mkResult false 0 [] in
  let r' := mkResult true 0.75 [] in
  let clk := mkClock 0 EmptyString in
  let s' := exec (handle_detection r clk) s in
  s' = set_monkey_present false
         (set_no_detection_frames (no_detection_frames s + 1) s)
  /\ monkey_present s' = false
  /\ no_detection_frames s' = no_detection_frames s + 1
  /\ event_of (calls (handle_detection r clk) s) = SightingEnded
  /\ no_detection_frames (exec (handle_detection r' clk) s') = 0.
Proof.
  intros s r r' clk.
  apply (departure_clears_presence_only s r r' clk clk);
    [reflexivity | reflexivity | discriminate | reflexivity].
Defined.

(** *** Session reset *)

(** The claim that [start_detection] brings the window back to the
    state of a new one fails: a count of 2 from an earlier session is
    still 2 after the reset. *)
Lemma start_detection_keeps_the_count :
  let s := {| model := true; arduino := false; camera := Some true;
              detection_active := false; arduino_connected := false;
              confidence_threshold := 0.5; detection_count := 2;
              monkey_present := true; detection_start_time := Some 100%float;
              no_detection_frames := 5; min_gap_frames := 30 |} in
  let s' := exec (start_detection (mkClock 200 EmptyString)) s in
  monkey_present s' = false
  /\ no_detection_frames s' = 0
  /\ detection_count s' = 2
  /\ ~ (detection_count s' = 0 /\ monkey_present s' = false
        /\ no_detection_frames s' = 0)
  /\ core s' <> core init.
Proof.
  cbv zeta.
  split; [reflexivity|]. split; [reflexivity|]. split; [reflexivity|].
  split.
  - intros [H _]. vm_compute in H. discriminate H.
  - intros H. vm_compute in H. discriminate H.
Qed.

(** C4, as the code has it.  When [start_detection] passes its two
    guards (a model is loaded and the camera is open) its reset sets
    [monkey_present] to false, [detection_start_time] to [None] and
    [no_detection_frames] to 0 for every prior state, and leaves
    [detection_count] as it was; the debouncer state is that of a new
    window exactly when the count was 0 before. *)
Theorem start_detection_resets_presence_and_counter
  (s : Self) (clk : Clock) :
  model s = true ->
  camera s = Some true ->
  let s' := exec (start_detection clk) s in
  s' = set_no_detection_frames 0
         (set_detection_start_time None
            (set_monkey_present false (set_detection_active true s)))
  /\ monkey_present s' = false
  /\ detection_start_time s' = None
  /\ no_detection_frames s' = 0
  /\ detection_count s' = detection_count s
  /\ (core s' = core init <-> detection_count s = 0).
Proof.
  intros Hm Hc. destruct s; cbn in Hm, Hc; subst.
  cbv. repeat split; congruence.
Qed.

Lemma start_detection_resets_presence_and_counter_witness :
  let s := {| model := true; arduino := false; camera := Some true;
              detection_active := false; arduino_connected := false;
              confidence_threshold := 0.5; detection_count := 2;
              monkey_present := true; detection_start_time := Some 100%float;
              no_detection_frames := 5; min_gap_frames := 30 |} in
  let s' := exec (start_detection (mkClock 200 EmptyString)) s in
  s' = set_no_detection_frames 0
         (set_detection_start_time None
            (set_monkey_present false (set_detection_active true s)))
  /\ monkey_present s' = false
  /\ detection_start_time s' = None
  /\ no_detection_frames s' = 0
  /\ detection_count s' = detection_count s
  /\ (core s' = core init <-> detection_count s = 0).
Proof.
  intros s.
  apply (start_detection_resets_presence_and_counter s); reflexivity.
Defined.

(** *** A scenario with a gap of three frames *)

(** The claim that no SightingEnded is emitted before the fourth
    non-detection in a row after the second detection fails: with a gap
    of 3 the third one (the seventh delivery) already ends the sighting,
    and the fourth is idle. *)
Lemma third_miss_already_ends_the_sighting :
  let sched : Schedule := fun _ => mkClock 0 EmptyString in
  let T := mkResult true 0.75 [] in
  let F := mkResult false 0 [] in
  let es := events sched (set_min_gap_frames 3 init) [T; F; F; T; F; F; F; F] in
  nth 6 es Idle = SightingEnded
  /\ nth 7 es Idle = Idle
  /\ ~ (forallb (fun e => negb (is_ended e)) (firstn 7 es) = true
        /\ nth 7 es Idle = SightingEnded).
Proof.
  cbv zeta. split; [reflexivity|]. split; [reflexivity|].
  intros [H _]. vm_compute in H. discriminate H.
Qed.

(** C5, as the code has it.  With a gap of 3 frames, the signals
    T,F,F,T,F,F,F,F delivered to a new window give: a SightingStarted
    with count 1, two Idle, a SightingOngoing, two Idle, a SightingEnded
    at the third non-detection in a row after the second detection, and
    an Idle for the fourth.  So one SightingStarted and one SightingEnded
    over the whole sequence; the final count is 1 and the monkey is
    absent. *)
Theorem gap_three_scenario
  (sched : Schedule) (r1 r2 r3 r4 r5 r6 r7 r8 : DetectionResult) :
  map detected [r1; r2; r3; r4; r5; r6; r7; r8]
    = [true; false; false; true; false; false; false; false] ->
  let s := set_min_gap_frames 3 init in
  let rs := [r1; r2; r3; r4; r5; r6; r7; r8] in
  events sched s rs
    = [SightingStarted 1 (confidence r1); Idle; Idle;
       SightingOngoing (confidence r4); Idle; Idle; SightingEnded; Idle]
  /\ detection_count (final sched s rs) = 1
  /\ monkey_present (final sched s rs) = false
  /\ map monkey_present (states sched s rs)
     = [true; true; true; true; true; true; false; false].
Proof.
  intros H.
  destruct r1 as [d1 c1 f1], r2 as [d2 c2 f2], r3 as [d3 c3 f3],
    r4 as [d4 c4 f4], r5 as [d5 c5 f5], r6 as [d6 c6 f6],
    r7 as [d7 c7 f7], r8 as [d8 c8 f8].
  cbn [map detected] in H.
  injection H as -> -> -> -> -> -> -> ->.
  cbv zeta. repeat split; vm_compute; reflexivity.
Qed.

Lemma gap_three_scenario_witness :
  let sched : Schedule := fun _ => mkClock 0 EmptyString in
  let T := mkResult true 0.75 [] in
  let F := mkResult false 0 [] in
  let s := set_min_gap_frames 3 init in
  let rs := [T; F; F; T; F; F; F; F] in
  events sched s rs
    = [SightingStarted 1 0.75; Idle; Idle;
       SightingOngoing 0.75; Idle; Idle; SightingEnded; Idle]
  /\ detection_count (final sched s rs) = 1
  /\ monkey_present (final sched s rs) = false
  /\ map monkey_present (states sched s rs)
     = [true; true; true; true; true; true; false; false].
Proof.
  intros sched T F.
  apply (gap_three_scenario sched T F F T F F F F). reflexivity.
Defined.

(** *** Detections while present *)

(** C6. A delivery with [detected] true made while the monkey is
    present, whatever the value of the absence counter at that moment,
    leaves the count unchanged, sets the counter to 0, keeps the monkey
    present, and only shows the tracking status (a SightingOngoing: no
    count label, no serial write, no log line, so neither a
    SightingStarted nor a SightingEnded); after it, any number of further
    deliveries with [detected] true leave every attribute as it is and
    stand for SightingOngoing each. *)
Theorem detection_while_present_is_idempotent
  (sched : Schedule) (s : Self) (r : DetectionResult) (clk : Clock)
  (rs : list DetectionResult) :
  monkey_present s = true ->
  detected r = true ->
  forallb detected rs = true ->
  let s' := exec (handle_detection r clk) s in
  s' = set_no_detection_frames 0 s
  /\ core s' = (true, 0, detection_count s)
  /\ calls (handle_detection r clk) s
     = [current_status_label_setText (TrackingSameMonkey (confidence r))]
  /\ event_of (calls (handle_detection r clk) s)
     = SightingOngoing (confidence r)
  /\ final sched s' rs = s'
  /\ states sched s' rs = repeat s' (length rs)
  /\ events sched s' rs = map (fun x => SightingOngoing (confidence x)) rs.
Proof.
  intros Hp Hr Hf. cbv zeta.
  rewrite event_handle_detection, calls_handle_detection,
    exec_handle_detection.
  cbv zeta. rewrite Hr, Hp.
  assert (Hp' : monkey_present (set_no_detection_frames 0 s) = true)
    by (destruct s; exact Hp).
  assert (Hn' : no_detection_frames (set_no_detection_frames 0 s) = 0)
    by (destruct s; reflexivity).
  destruct (detections_while_present rs sched _ Hp' Hn' Hf)
    as (Hfin & Hst & Htr).
  unfold events. rewrite Hfin, Hst, Htr, map_map.
  repeat split. unfold core. destruct s; cbn in *; subst. reflexivity.
Qed.

Lemma detection_while_present_is_idempotent_witness :
  let sched : Schedule := fun _ => mkClock 0 EmptyString in
  let s := set_no_detection_frames 12 (set_monkey_present true init) in
  let r := mkResult true 0.75 [] in
  let clk := mkClock 0 EmptyString in
  let rs := [mkResult true 0.5 []; mkResult true 0.875 []] in
  let s' := exec (handle_detection r clk) s in
  s' = set_no_detection_frames 0 s
  /\ core s' = (true, 0, detection_count s)
  /\ calls (handle_detection r clk) s
     = [current_status_label_setText (TrackingSameMonkey (confidence r))]
  /\ event_of (calls (handle_detection r clk) s)
     = SightingOngoing (confidence r)
  /\ final sched s' rs = s'
  /\ states sched s' rs = repeat s' (length rs)
  /\ events sched s' rs = map (fun x => SightingOngoing (confidence x)) rs.
Proof.
  intros sched s r clk rs.
  apply (detection_while_present_is_idempotent sched s r clk rs);
    reflexivity.
Defined.

(** *** Non-detections while absent *)

(** C10. While the monkey is absent, deliveries with [detected] false
    leave [monkey_present] and [detection_count] as they are and only
    show the monitoring status (Idle); [no_detection_frames] goes up by
    one at each of them, with no bound, and is set to 0 by the next
    delivery with [detected] true, which stands for a SightingStarted
    with the next count.  The value the counter has while the monkey is
    absent influences nothing: from two absent windows that differ in
    the counter only, every sequence of signals makes the same calls and
    goes through the same states up to the counter. *)
Theorem misses_while_absent_only_move_the_counter
  (sched sched' : Schedule) (s : Self) (rs rs' : list DetectionResult)
  (r : DetectionResult) (clk : Clock) (n : Z) :
  monkey_present s = false ->
  forallb (fun x => negb (detected x)) rs = true ->
  detected r = true ->
  let s' := final sched s rs in
  s' = set_no_detection_frames
         (no_detection_frames s + Z.of_nat (length rs)) s
  /\ monkey_present s' = false
  /\ detection_count s' = detection_count s
  /\ no_detection_frames s' = no_detection_frames s + Z.of_nat (length rs)
  /\ trace sched s rs
     = repeat [current_status_label_setText Monitoring] (length rs)
  /\ events sched s rs = repeat Idle (length rs)
  /\ no_detection_frames (exec (handle_detection r clk) s') = 0
  /\ event_of (calls (handle_detection r clk) s')
     = SightingStarted (detection_count s + 1) (confidence r)
  /\ trace sched' (set_no_detection_frames n s) rs' = trace sched' s rs'
  /\ map (set_no_detection_frames 0)
       (states sched' (set_no_detection_frames n s) rs')
     = map (set_no_detection_frames 0) (states sched' s rs').
Proof.
  intros Hp Hf Hr. cbv zeta.
  destruct (misses_while_absent rs sched s Hp Hf) as (Hfin & Htr).
  unfold events.
  rewrite event_handle_detection, exec_handle_detection, Hfin, Htr, Hr,
    map_repeat.
  assert (Hab : same_sighting (set_no_detection_frames n s) s).
  { split; destruct s; cbn in *; [reflexivity | congruence]. }
  destruct (same_sighting_run rs' sched' _ _ Hab) as (_ & Htr' & Hst').
  rewrite Htr', Hst'.
  destruct s; cbn in *; subst. repeat split.
Qed.

Lemma misses_while_absent_only_move_the_counter_witness :
  let sched : Schedule := fun _ => mkClock 0 EmptyString in
  let s := init in
  let T := mkResult true 0.75 [] in
  let F := mkResult false 0 [] in
  let rs := repeat F 40 in
  let rs' := [F; T; F; T] in
  let clk := mkClock 0 EmptyString in
  let s' := final sched s rs in
  s' = set_no_detection_frames
         (no_detection_frames s + Z.of_nat (length rs)) s
  /\ monkey_present s' = false
  /\ detection_count s' = detection_count s
  /\ no_detection_frames s' = no_detection_frames s + Z.of_nat (length rs)
  /\ trace sched s rs
     = repeat [current_status_label_setText Monitoring] (length rs)
  /\ events sched s rs = repeat Idle (length rs)
  /\ no_detection_frames (exec (handle_detection T clk) s') = 0
  /\ event_of (calls (handle_detection T clk) s')
     = SightingStarted (detection_count s + 1) (confidence T)
  /\ trace sched (set_no_detection_frames 1000 s) rs' = trace sched s rs'
  /\ map (set_no_detection_frames 0)
       (states sched (set_no_detection_frames 1000 s) rs')
     = map (set_no_detection_frames 0) (states sched s rs').
Proof.
  intros sched s T F rs rs' clk.
  apply (misses_while_absent_only_move_the_counter
           sched sched s rs rs' T clk 1000); reflexivity.
Defined.

(** *** Alternation of events *)

Lemma accepts_run (rs : list DetectionResult) :
  forall (sched : Schedule) (s : Self),
    accepts (monkey_present s)
      (combine (map detected rs) (events sched s rs)) = true.
Proof.
  unfold events.
  induction rs as [|r rs IH]; intros sched s; [reflexivity|].
  cbn [trace map combine accepts].
  specialize (IH (later sched) (exec (handle_detection r (sched O)) s)).
  rewrite monkey_present_exec in IH. rewrite event_handle_detection.
  destruct (detected r), (monkey_present s),
    (min_gap_frames s <=? no_detection_frames s + 1); exact IH.
Qed.

Lemma alternates_run (rs : list DetectionResult) :
  forall (sched : Schedule) (s : Self),
    alternates (monkey_present s) (events sched s rs) = true.
Proof.
  unfold events.
  induction rs as [|r rs IH]; intros sched s; [reflexivity|].
  cbn [trace map alternates].
  specialize (IH (later sched) (exec (handle_detection r (sched O)) s)).
  rewrite monkey_present_exec in IH. rewrite event_handle_detection.
  destruct (detected r), (monkey_present s),
    (min_gap_frames s <=? no_detection_frames s + 1); exact IH.
Qed.

Lemma started_iff_rising (rs : list DetectionResult) :
  forall (sched : Schedule) (s : Self),
    map is_started (events sched s rs)
    = rising (monkey_present s) (map monkey_present (states sched s rs)).
Proof.
  unfold events.
  induction rs as [|r rs IH]; intros sched s; [reflexivity|].
  cbn [trace states map rising].
  rewrite IH, event_handle_detection, monkey_present_exec.
  destruct (detected r), (monkey_present s),
    (min_gap_frames s <=? no_detection_frames s + 1); reflexivity.
Qed.

(** C7. In every run of the slot, from the state of a new window as
    from any other, the events follow the state machine: while absent a
    detection gives SightingStarted and a non-detection Idle, while
    present a detection gives SightingOngoing and a non-detection Idle
    or the SightingEnded that makes the monkey absent.  So
    SightingStarted and SightingEnded alternate (never two of one
    without the other between them), a SightingStarted is emitted at
    the absent-to-present deliveries and at no other, and once
    SightingEnded was emitted the non-detections that follow are Idle
    until the next detection. *)
Theorem events_alternate
  (sched : Schedule) (s : Self) (rs : list DetectionResult) :
  accepts (monkey_present s) (combine (map detected rs) (events sched s rs))
    = true
  /\ alternates (monkey_present s) (events sched s rs) = true
  /\ map is_started (events sched s rs)
     = rising (monkey_present s) (map monkey_present (states sched s rs))
  /\ accepts false (combine (map detected rs) (events sched init rs)) = true
  /\ alternates false (events sched init rs) = true.
Proof.
  repeat split.
  - apply accepts_run.
  - apply alternates_run.
  - apply started_iff_rising.
  - apply (accepts_run rs sched init).
  - apply (alternates_run rs sched init).
Qed.

(** *** Independence of the confidence and of the clock *)

Lemma same_debouncer_step
  (r1 r2 : DetectionResult) (clk1 clk2 : Clock) (a b : Self) :
  same_debouncer a b ->
  detected r1 = detected r2 ->
  same_debouncer (exec (handle_detection r1 clk1) a)
                 (exec (handle_detection r2 clk2) b)
  /\ commands (calls (handle_detection r1 clk1) a)
     = commands (calls (handle_detection r2 clk2) b).
Proof.
  intros (Hcore & Hgap & Hw) Hd.
  rewrite !commands_handle_detection, !exec_handle_detection, <- Hd, <- Hw.
  destruct a as [? ? ? ? ? ? ca pa ? na ga], b as [? ? ? ? ? ? cb pb ? nb gb].
  unfold same_debouncer, core in *. cbn in *.
  injection Hcore as -> -> ->. subst gb.
  destruct (detected r1), pb; cbn; try destruct (ga <=? nb + 1); cbn;
    repeat split; assumption.
Qed.

Lemma same_debouncer_run (rs1 : list DetectionResult) :
  forall (rs2 : list DetectionResult) (sched1 sched2 : Schedule) (a b : Self),
    same_debouncer a b ->
    map detected rs1 = map detected rs2 ->
    same_debouncer (final sched1 a rs1) (final sched2 b rs2)
    /\ map core (states sched1 a rs1) = map core (states sched2 b rs2)
    /\ map commands (trace sched1 a rs1) = map commands (trace sched2 b rs2).
Proof.
  induction rs1 as [|r1 rs1 IH]; intros [|r2 rs2] sched1 sched2 a b Hab Hd;
    try discriminate Hd.
  - cbn. repeat split; apply Hab.
  - cbn [map] in Hd. injection Hd as Hd Hds.
    destruct (same_debouncer_step r1 r2 (sched1 O) (sched2 O) a b Hab Hd)
      as [Hab' Hc].
    destruct (IH rs2 (later sched1) (later sched2) _ _ Hab' Hds)
      as (Hfin & Hst & Htr).
    cbn [final states trace map]. rewrite Hc, Hst, Htr.
    repeat split; try apply Hfin. f_equal. apply Hab'.
Qed.

(** C9. The confidence of a signal never influences the debouncer
    state: two sequences of signals whose [detected] values agree one by
    one, whatever their confidences (and frames), take a window through
    the same (present, counter, count) after every delivery, and cause
    the same writes to the serial port. *)
Theorem confidence_does_not_influence_the_state
  (sched : Schedule) (s : Self) (rs1 rs2 : list DetectionResult) :
  map detected rs1 = map detected rs2 ->
  map core (states sched s rs1) = map core (states sched s rs2)
  /\ core (final sched s rs1) = core (final sched s rs2)
  /\ map commands (trace sched s rs1) = map commands (trace sched s rs2).
Proof.
  intros Hd.
  assert (Hss : same_debouncer s s) by (repeat split).
  destruct (same_debouncer_run rs1 rs2 sched sched s s Hss Hd)
    as (Hfin & Hst & Htr).
  repeat split; try assumption. apply Hfin.
Qed.

Lemma confidence_does_not_influence_the_state_witness :
  let sched : Schedule := fun _ => mkClock 0 EmptyString in
  let s := set_min_gap_frames 2 init in
  let rs1 := [mkResult true 0.5 []; mkResult false 0 [];
              mkResult false 0 []; mkResult true 0.75 []] in
  let rs2 := [mkResult true 0.875 [1]; mkResult false 0.25 [];
              mkResult false 1 []; mkResult true 0.625 [2]] in
  map core (states sched s rs1) = map core (states sched s rs2)
  /\ core (final sched s rs1) = core (final sched s rs2)
  /\ map commands (trace sched s rs1) = map commands (trace sched s rs2).
Proof.
  intros sched s rs1 rs2.
  apply (confidence_does_not_influence_the_state sched s rs1 rs2).
  reflexivity.
Defined.

Lemma untimed_step (r : DetectionResult) (clk1 clk2 : Clock) (a b : Self) :
  untimed a = untimed b ->
  untimed (exec (handle_detection r clk1) a)
    = untimed (exec (handle_detection r clk2) b)
  /\ map unstamped (calls (handle_detection r clk1) a)
     = map unstamped (calls (handle_detection r clk2) b).
Proof.
  intros Hab.
  rewrite !calls_handle_detection, !exec_handle_detection.
  destruct a as [? ? ? ? ? ? ? pa ? na ga], b as [? ? ? ? ? ? ? pb ? nb gb].
  unfold untimed, set_detection_start_time in Hab. cbn in Hab.
  injection Hab as -> -> -> -> -> -> -> -> -> ->.
  destruct r as [[|] ? ?], pb, arduino1, arduino_connected1; cbn;
    try destruct (gb <=? nb + 1); cbn; split; reflexivity.
Qed.

Lemma untimed_run (rs : list DetectionResult) :
  forall (sched1 sched2 : Schedule) (a b : Self),
    untimed a = untimed b ->
    untimed (final sched1 a rs) = untimed (final sched2 b rs)
    /\ map untimed (states sched1 a rs) = map untimed (states sched2 b rs)
    /\ map (map unstamped) (trace sched1 a rs)
       = map (map unstamped) (trace sched2 b rs).
Proof.
  induction rs as [|r rs IH]; intros sched1 sched2 a b Hab.
  - cbn. repeat split. exact Hab.
  - destruct (untimed_step r (sched1 O) (sched2 O) a b Hab) as [Hab' Hc].
    destruct (IH (later sched1) (later sched2) _ _ Hab') as (Hfin & Hst & Htr).
    cbn [final states trace map]. rewrite Hc, Hst, Htr, Hab'.
    repeat split. exact Hfin.
Qed.

Lemma event_of_unstamped (cs : list Call) :
  event_of (map unstamped cs) = event_of cs.
Proof.
  induction cs as [|c cs IH]; [reflexivity|].
  destruct c as [| [] | | | ? [] | | |]; cbn; try reflexivity; exact IH.
Qed.

Lemma commands_unstamped (cs : list Call) :
  commands (map unstamped cs) = commands cs.
Proof.
  induction cs as [|c cs IH]; [reflexivity|].
  destruct c; cbn; rewrite ?IH; reflexivity.
Qed.

Lemma core_untimed (s : Self) : core (untimed s) = core s.
Proof. destruct s; reflexivity. Qed.

Lemma map_core_untimed (l : list Self) :
  map core (map untimed l) = map core l.
Proof.
  induction l as [|s l IH]; [reflexivity|].
  cbn [map]. now rewrite IH, core_untimed.
Qed.

Lemma map_event_of_unstamped (t : list (list Call)) :
  map event_of (map (map unstamped) t) = map event_of t.
Proof.
  induction t as [|cs t IH]; [reflexivity|].
  cbn [map]. now rewrite IH, event_of_unstamped.
Qed.

Lemma map_commands_unstamped (t : list (list Call)) :
  map commands (map (map unstamped) t) = map commands t.
Proof.
  induction t as [|cs t IH]; [reflexivity|].
  cbn [map]. now rewrite IH, commands_unstamped.
Qed.

End DetectorAppFacts.

(** ** Frame counts against the wall clock *)

Module ClockFacts.

(** The count of monkey_detection_gui.py moves on a detection exactly
    when more seconds than the cool-down have passed since the last
    counted one. *)
Lemma cooldown_detection_count
  (r : DetectionResult) (clk : Clock) (g : DetectionGui.Self) :
  DetectionGui.detection_count (exec (DetectionGui.handle_detection r clk) g)
  = DetectionGui.detection_count g
    + (if detected r
          && PrimFloat.ltb
               (DetectionGui.float_of_int (DetectionGui.alert_cooldown g))
               (PrimFloat.sub (time_time clk)
                  (DetectionGui.last_detection_time g))
       then 1 else 0).
Proof.
  destruct r as [[|] ? ?], g as [[|] [|] ? ? ? [|] ?];
    unfold exec, DetectionGui.handle_detection, bind, get; cbn;
    try lia;
    destruct (PrimFloat.ltb _ _); cbn; lia.
Qed.

(** The claim that no elapsed-seconds condition influences a count or
    an alert fails for the slot of monkey_detection_gui.py: the same two
    detections are counted once, with one alert, when delivered one
    second apart, and twice, with two alerts, when delivered ten seconds
    apart. *)
Lemma cooldown_depends_on_the_clock :
  let at_ (l : list float) : Schedule :=
    fun k => mkClock (nth k l 0%float) EmptyString in
  let g := DetectionGui.set_arduino true true
             (DetectionGui.init false EmptyString) in
  let rs := [mkResult true 0.75 []; mkResult true 0.75 []] in
  let quick := at_ [100; 101]%float in
  let slow := at_ [100; 110]%float in
  DetectionGui.detection_count (DetectionGui.final quick g rs) = 1
  /\ DetectionGui.detection_count (DetectionGui.final slow g rs) = 2
  /\ concat (map DetectionGui.commands (DetectionGui.trace quick g rs))
     = [MONKEY_DETECTED]
  /\ concat (map DetectionGui.commands (DetectionGui.trace slow g rs))
     = [MONKEY_DETECTED; MONKEY_DETECTED]
  /\ DetectionGui.detection_count (DetectionGui.final quick g rs)
     <> DetectionGui.detection_count (DetectionGui.final slow g rs).
Proof.
  cbv zeta. repeat (split; [vm_compute; reflexivity|]).
  vm_compute. discriminate.
Qed.

(** One delivery to the slot of monkey_detection_gui.py: when it is
    counted the count goes up and the time of the delivery is recorded
    as that of the last detection; otherwise nothing changes. *)
Lemma cooldown_exec
  (r : DetectionResult) (clk : Clock) (g : DetectionGui.Self) :
  exec (DetectionGui.handle_detection r clk) g
  = if detected r
       && (DetectionGui.float_of_int (DetectionGui.alert_cooldown g)
           <? time_time clk - DetectionGui.last_detection_time g)%float
    then DetectionGui.set_last_detection_time (time_time clk)
           (DetectionGui.set_detection_count
              (DetectionGui.detection_count g + 1) g)
    else g.
Proof.
  destruct r as [[|] ? ?], g as [[|] [|] ? ? ? [|] ?];
    unfold exec, DetectionGui.handle_detection, bind, get; cbn;
    try reflexivity;
    destruct (PrimFloat.ltb _ _); reflexivity.
Qed.

(** The serial line of one delivery: MONKEY_DETECTED when it is counted
    and the Arduino is connected, nothing otherwise. *)
Lemma cooldown_commands
  (r : DetectionResult) (clk : Clock) (g : DetectionGui.Self) :
  DetectionGui.commands (calls (DetectionGui.handle_detection r clk) g)
  = if detected r
       && (DetectionGui.float_of_int (DetectionGui.alert_cooldown g)
           <? time_time clk - DetectionGui.last_detection_time g)%float
       && (DetectionGui.arduino_connected g && DetectionGui.arduino g)
    then [MONKEY_DETECTED] else [].
Proof.
  destruct r as [[|] ? ?], g as [[|] [|] ? ? ? [|] ?];
    unfold calls, DetectionGui.handle_detection, bind, get; cbn;
    try reflexivity;
    destruct (PrimFloat.ltb _ _); reflexivity.
Qed.

(** A run of the slot follows the cool-down rule. *)
Lemma cooldown_run (ds : list DetectionResult) :
  forall (sched : Schedule) (g : DetectionGui.Self),
    map DetectionGui.commands (DetectionGui.trace sched g ds)
    = map (fun c : bool =>
             if c && (DetectionGui.arduino_connected g
                      && DetectionGui.arduino g)
             then [MONKEY_DETECTED] else [])
        (DetectionGui.cooldown_counts (DetectionGui.alert_cooldown g)
           (DetectionGui.last_detection_time g) sched ds)
    /\ DetectionGui.detection_count (DetectionGui.final sched g ds)
       = DetectionGui.detection_count g
         + Z.of_nat
             (count_occ bool_dec
                (DetectionGui.cooldown_counts (DetectionGui.alert_cooldown g)
                   (DetectionGui.last_detection_time g) sched ds)
                true)
    /\ DetectionGui.last_detection_time (DetectionGui.final sched g ds)
       = DetectionGui.cooldown_last (DetectionGui.alert_cooldown g)
           (DetectionGui.last_detection_time g) sched ds.
Proof.
  induction ds as [|d ds IH]; intros sched g.
  - cbn. repeat split. lia.
  - cbn [DetectionGui.trace DetectionGui.final DetectionGui.cooldown_counts
           DetectionGui.cooldown_last map count_occ].
    cbv zeta.
    destruct (IH (later sched)
                (exec (DetectionGui.handle_detection d (sched O)) g))
      as (Hc & Hn & Hl).
    rewrite Hc, Hn, Hl, cooldown_commands. clear Hc Hn Hl IH.
    rewrite cooldown_exec.
    destruct (detected d
              && (DetectionGui.float_of_int (DetectionGui.alert_cooldown g)
                  <? time_time (sched O)
                     - DetectionGui.last_detection_time g)%float);
      destruct g as [ar con cnt last cool sv fol]; cbn;
      repeat split; lia.
Qed.

(** On the range of the cool-down spin box the conversion of the
    cool-down to a float is exact. *)
Lemma cooldown_range_exact (c : Z) :
  1 <= c <= 60 ->
  DetectionGui.is_integer (DetectionGui.float_of_int c) c = true.
Proof.
  intros Hc.
  assert (Hall : forallb (fun n => DetectionGui.is_integer
                                     (DetectionGui.float_of_int (Z.of_nat n))
                                     (Z.of_nat n))
                   (seq 1 60) = true) by (vm_compute; reflexivity).
  rewrite forallb_forall in Hall.
  rewrite <- (Z2Nat.id c) by lia.
  apply Hall, in_seq. lia.
Qed.

(** C8, as the code has it.  The slot of monkey_detector_app.py is
    frame-count-based and independent of the clock: for every sequence
    of signals and every two schedules of delivery, the windows agree
    after every delivery on all attributes but the recorded start time
    (so on presence, counter and count), the events and the serial
    writes are the same, and the calls are the same up to the clock
    reading they print.  The slot of monkey_detection_gui.py is
    clock-based instead.  With a cool-down the spin box allows (1 to 60
    seconds, which the comparison reads exactly), a delivery is counted
    exactly when it reports a detection and more seconds than
    [alert_cooldown] have passed since [last_detection_time]; a counted
    delivery adds one to the count, records its own time as
    [last_detection_time] and, with the Arduino connected, writes
    MONKEY_DETECTED; any other delivery changes nothing and writes
    nothing.  So over every run the counted deliveries, the alerts, the
    final count and the final [last_detection_time] are those of the
    cool-down rule applied to the detected flags and the instants of
    delivery. *)
Theorem frame_count_based_in_the_detector_app
  (sched1 sched2 : Schedule) (s : DetectorApp.Self)
  (rs : list DetectionResult)
  (r : DetectionResult) (clk : Clock) (g : DetectionGui.Self)
  (sched : Schedule) (ds : list DetectionResult) :
  1 <= DetectionGui.alert_cooldown g <= 60 ->
  let counted :=
    detected r
    && (DetectionGui.float_of_int (DetectionGui.alert_cooldown g)
        <? time_time clk - DetectionGui.last_detection_time g)%float in
  let wired :=
    DetectionGui.arduino_connected g && DetectionGui.arduino g in
  map DetectorApp.untimed (DetectorApp.states sched1 s rs)
    = map DetectorApp.untimed (DetectorApp.states sched2 s rs)
  /\ map DetectorApp.core (DetectorApp.states sched1 s rs)
     = map DetectorApp.core (DetectorApp.states sched2 s rs)
  /\ DetectorApp.core (DetectorApp.final sched1 s rs)
     = DetectorApp.core (DetectorApp.final sched2 s rs)
  /\ DetectorApp.events sched1 s rs = DetectorApp.events sched2 s rs
  /\ map DetectorApp.commands (DetectorApp.trace sched1 s rs)
     = map DetectorApp.commands (DetectorApp.trace sched2 s rs)
  /\ map (map DetectorApp.unstamped) (DetectorApp.trace sched1 s rs)
     = map (map DetectorApp.unstamped) (DetectorApp.trace sched2 s rs)
  /\ DetectionGui.detection_count
       (exec (DetectionGui.handle_detection r clk) g)
     = DetectionGui.detection_count g
       + (if detected r
             && PrimFloat.ltb
                  (DetectionGui.float_of_int (DetectionGui.alert_cooldown g))
                  (PrimFloat.sub (time_time clk)
                     (DetectionGui.last_detection_time g))
          then 1 else 0)
  /\ DetectionGui.is_integer
       (DetectionGui.float_of_int (DetectionGui.alert_cooldown g))
       (DetectionGui.alert_cooldown g) = true
  /\ exec (DetectionGui.handle_detection r clk) g
     = (if counted
        then DetectionGui.set_last_detection_time (time_time clk)
               (DetectionGui.set_detection_count
                  (DetectionGui.detection_count g + 1) g)
        else g)
  /\ DetectionGui.commands (calls (DetectionGui.handle_detection r clk) g)
     = (if counted && wired then [MONKEY_DETECTED] else [])
  /\ map DetectionGui.commands (DetectionGui.trace sched g ds)
     = map (fun c : bool => if c && wired then [MONKEY_DETECTED] else [])
         (DetectionGui.cooldown_counts (DetectionGui.alert_cooldown g)
            (DetectionGui.last_detection_time g) sched ds)
  /\ DetectionGui.detection_count (DetectionGui.final sched g ds)
     = DetectionGui.detection_count g
       + Z.of_nat
           (count_occ bool_dec
              (DetectionGui.cooldown_counts (DetectionGui.alert_cooldown g)
                 (DetectionGui.last_detection_time g) sched ds)
              true)
  /\ DetectionGui.last_detection_time (DetectionGui.final sched g ds)
     = DetectionGui.cooldown_last (DetectionGui.alert_cooldown g)
         (DetectionGui.last_detection_time g) sched ds.
Proof.
  intros Hcool. cbv zeta.
  destruct (DetectorAppFacts.untimed_run rs sched1 sched2 s s eq_refl)
    as (Hfin & Hst & Htr).
  split; [exact Hst|].
  split.
  { rewrite <- (DetectorAppFacts.map_core_untimed (DetectorApp.states sched1 s rs)).
    rewrite Hst. apply DetectorAppFacts.map_core_untimed. }
  split.
  { rewrite <- (DetectorAppFacts.core_untimed (DetectorApp.final sched1 s rs)).
    rewrite Hfin. apply DetectorAppFacts.core_untimed. }
  split.
  { unfold DetectorApp.events.
    rewrite <- (DetectorAppFacts.map_event_of_unstamped
                  (DetectorApp.trace sched1 s rs)).
    rewrite Htr. apply DetectorAppFacts.map_event_of_unstamped. }
  split.
  { rewrite <- (DetectorAppFacts.map_commands_unstamped
                  (DetectorApp.trace sched1 s rs)).
    rewrite Htr. apply DetectorAppFacts.map_commands_unstamped. }
  split; [exact Htr|].
  split; [apply cooldown_detection_count|].
  split; [apply cooldown_range_exact; exact Hcool|].
  split; [apply cooldown_exec|].
  split; [apply cooldown_commands|].
  apply cooldown_run.
Qed.

Lemma frame_count_based_in_the_detector_app_witness :
  let at_ (l : list float) : Schedule :=
    fun k => mkClock (nth k l 0%float) EmptyString in
  let sched1 := at_ [100; 101; 102; 103]%float in
  let sched2 := at_ [100; 200; 300; 400]%float in
  let s := DetectorApp.set_min_gap_frames 2 DetectorApp.init in
  let T := mkResult true 0.75 [] in
  let F := mkResult false 0 [] in
  let rs := [T; F; F; T] in
  let r := T in
  let clk := mkClock 103 EmptyString in
  let g := DetectionGui.set_last_detection_time 100
             (DetectionGui.set_arduino true true
                (DetectionGui.init false EmptyString)) in
  let sched := at_ [101; 106; 107; 120]%float in
  let ds := [T; T; T; T] in
  let counted :=
    detected r
    && (DetectionGui.float_of_int (DetectionGui.alert_cooldown g)
        <? time_time clk - DetectionGui.last_detection_time g)%float in
  let wired :=
    DetectionGui.arduino_connected g && DetectionGui.arduino g in
  1 <= DetectionGui.alert_cooldown g <= 60
  /\ (map DetectorApp.untimed (DetectorApp.states sched1 s rs)
    = map DetectorApp.untimed (DetectorApp.states sched2 s rs)
  /\ map DetectorApp.core (DetectorApp.states sched1 s rs)
     = map DetectorApp.core (DetectorApp.states sched2 s rs)
  /\ DetectorApp.core (DetectorApp.final sched1 s rs)
     = DetectorApp.core (DetectorApp.final sched2 s rs)
  /\ DetectorApp.events sched1 s rs = DetectorApp.events sched2 s rs
  /\ map DetectorApp.commands (DetectorApp.trace sched1 s rs)
     = map DetectorApp.commands (DetectorApp.trace sched2 s rs)
  /\ map (map DetectorApp.unstamped) (DetectorApp.trace sched1 s rs)
     = map (map DetectorApp.unstamped) (DetectorApp.trace sched2 s rs)
  /\ DetectionGui.detection_count
       (exec (DetectionGui.handle_detection r clk) g)
     = DetectionGui.detection_count g
       + (if detected r
             && PrimFloat.ltb
                  (DetectionGui.float_of_int (DetectionGui.alert_cooldown g))
                  (PrimFloat.sub (time_time clk)
                     (DetectionGui.last_detection_time g))
          then 1 else 0)
  /\ DetectionGui.is_integer
       (DetectionGui.float_of_int (DetectionGui.alert_cooldown g))
       (DetectionGui.alert_cooldown g) = true
  /\ exec (DetectionGui.handle_detection r clk) g
     = (if counted
        then DetectionGui.set_last_detection_time (time_time clk)
               (DetectionGui.set_detection_count
                  (DetectionGui.detection_count g + 1) g)
        else g)
  /\ DetectionGui.commands (calls (DetectionGui.handle_detection r clk) g)
     = (if counted && wired then [MONKEY_DETECTED] else [])
  /\ map DetectionGui.commands (DetectionGui.trace sched g ds)
     = map (fun c : bool => if c && wired then [MONKEY_DETECTED] else [])
         (DetectionGui.cooldown_counts (DetectionGui.alert_cooldown g)
            (DetectionGui.last_detection_time g) sched ds)
  /\ DetectionGui.detection_count (DetectionGui.final sched g ds)
     = DetectionGui.detection_count g
       + Z.of_nat
           (count_occ bool_dec
              (DetectionGui.cooldown_counts (DetectionGui.alert_cooldown g)
                 (DetectionGui.last_detection_time g) sched ds)
              true)
  /\ DetectionGui.last_detection_time (DetectionGui.final sched g ds)
     = DetectionGui.cooldown_last (DetectionGui.alert_cooldown g)
         (DetectionGui.last_detection_time g) sched ds).
Proof.
  intros at_ sched1 sched2 s T F rs r clk g sched ds.
  assert (Hcool : 1 <= DetectionGui.alert_cooldown g <= 60)
    by (cbn; lia).
  split; [exact Hcool|].
  apply (frame_count_based_in_the_detector_app
           sched1 sched2 s rs r clk g sched ds Hcool).
Defined.

End ClockFacts.


(** ** The order of binary64 values *)

Module FloatOrder.

Import SpecFloat.

Lemma SFcompare_Lt_trans (x y z : spec_float) :
  SFcompare x y = Some Lt -> SFcompare y z = Some Lt ->
  SFcompare x z = Some Lt.
Proof.
  destruct x as [[|]|[|]| |[|] mx ex], y as [[|]|[|]| |[|] my ey],
    z as [[|]|[|]| |[|] mz ez]; cbn; try congruence.
  - destruct (Z.compare_spec ex ey), (Z.compare_spec ey ez),
      (Z.compare_spec ex ez); try congruence; try lia; subst.
    rewrite !Pos.compare_cont_spec. cbn [Pos.switch_Eq].
    destruct (Pos.compare_spec mx my), (Pos.compare_spec my mz),
      (Pos.compare_spec mx mz); cbn; try congruence; lia.
  - destruct (Z.compare_spec ex ey), (Z.compare_spec ey ez),
      (Z.compare_spec ex ez); try congruence; try lia; subst.
    rewrite !Pos.compare_cont_spec. cbn [Pos.switch_Eq].
    destruct (Pos.compare_spec mx my), (Pos.compare_spec my mz),
      (Pos.compare_spec mx mz); cbn; try congruence; lia.
Qed.

(** [<] on floats is transitive. *)
Lemma ltb_trans (x y z : float) :
  (x <? y)%float = true -> (y <? z)%float = true -> (x <? z)%float = true.
Proof.
  rewrite !FloatAxioms.ltb_spec. unfold SFltb.
  destruct (SFcompare (FloatOps.Prim2SF x) (FloatOps.Prim2SF y))
    as [[| |]|] eqn:Hxy; try discriminate.
  destruct (SFcompare (FloatOps.Prim2SF y) (FloatOps.Prim2SF z))
    as [[| |]|] eqn:Hyz; try discriminate.
  intros _ _. now rewrite (SFcompare_Lt_trans _ _ _ Hxy Hyz).
Qed.

(** [<] on floats is irreflexive. *)
Lemma ltb_irrefl (x : float) : (x <? x)%float = false.
Proof.
  rewrite FloatAxioms.ltb_spec. unfold SFltb.
  destruct (FloatOps.Prim2SF x) as [[|]|[|]| |[|] m e]; cbn;
    try reflexivity;
    rewrite Z.compare_refl, Pos.compare_cont_spec, Pos.compare_refl;
    reflexivity.
Qed.

(** What lies above a value that is not negative is positive. *)
Lemma ltb_zero_of_above (t c : float) :
  (t <? 0)%float = false -> (t <? c)%float = true -> (0 <? c)%float = true.
Proof.
  rewrite !FloatAxioms.ltb_spec. unfold SFltb.
  change (FloatOps.Prim2SF 0) with (S754_zero false).
  destruct (FloatOps.Prim2SF t) as [[|]|[|]| |[|] mt et],
    (FloatOps.Prim2SF c) as [[|]|[|]| |[|] mc ec]; cbn; congruence.
Qed.

End FloatOrder.

(** ** Properties of the detection threads *)

Module WorkerFacts.

Import Worker.

Section Scan.

Variable colour : float -> Colour.
Variable threshold : float.

Let qualifies (b : Box) : bool := (threshold <? conf b)%float.

Lemma scan_flat (results : Results) :
  forall v : Scan,
    fold_left (scan_result colour threshold) results v
    = fold_left (scan_box colour threshold) (all_boxes results) v.
Proof.
  induction results as [|[bs|] results IH]; intros v; cbn.
  - reflexivity.
  - now rewrite fold_left_app, IH.
  - apply IH.
Qed.

Lemma scan_boxes_detected (bs : list Box) :
  forall v : Scan,
    monkey_detected (fold_left (scan_box colour threshold) bs v)
    = monkey_detected v || existsb qualifies bs.
Proof.
  induction bs as [|b bs IH]; intros v; cbn.
  - now rewrite orb_false_r.
  - rewrite IH. unfold scan_box, qualifies.
    destruct (threshold <? conf b)%float; cbn;
      [now rewrite orb_true_r | reflexivity].
Qed.

Lemma scan_boxes_drawn (bs : list Box) :
  forall v : Scan,
    drawn (fold_left (scan_box colour threshold) bs v)
    = drawn v ++ map (fun b => (b, colour (conf b))) (filter qualifies bs).
Proof.
  induction bs as [|b bs IH]; intros v; cbn.
  - now rewrite app_nil_r.
  - rewrite IH. unfold scan_box. fold (qualifies b).
    destruct (qualifies b); cbn; [|reflexivity].
    now rewrite <- app_assoc.
Qed.

Lemma scan_boxes_none (bs : list Box) :
  forall v : Scan,
    existsb qualifies bs = false ->
    fold_left (scan_box colour threshold) bs v = v.
Proof.
  induction bs as [|b bs IH]; intros v H; cbn in *; [reflexivity|].
  apply orb_false_iff in H as [Hb H].
  unfold scan_box. unfold qualifies in Hb. rewrite Hb. now apply IH.
Qed.

(** The largest confidence so far is not below any qualifying box. *)
Lemma scan_boxes_bound (bs : list Box) :
  forall (v : Scan) (seen : list Box),
    (forall b, In b seen -> qualifies b = true ->
               (max_confidence v <? conf b)%float = false) ->
    forall b, In b (seen ++ bs) -> qualifies b = true ->
      (max_confidence (fold_left (scan_box colour threshold) bs v)
       <? conf b)%float = false.
Proof.
  induction bs as [|c bs IH]; intros v seen Hv b Hin Hq; cbn.
  - rewrite app_nil_r in Hin. now apply Hv.
  - apply (IH _ (seen ++ [c])); [|now rewrite <- app_assoc|exact Hq].
    intros b' Hin' Hq'. unfold scan_box. fold (qualifies c).
    apply in_app_or in Hin' as [Hin'|[<-|[]]].
    + specialize (Hv b' Hin' Hq').
      destruct (qualifies c); cbn; [|exact Hv].
      destruct (max_confidence v <? conf c)%float eqn:Hlt; [|exact Hv].
      destruct (conf c <? conf b')%float eqn:Hcb; [|reflexivity].
      now rewrite (FloatOrder.ltb_trans _ _ _ Hlt Hcb) in Hv.
    + rewrite Hq'. cbn.
      destruct (max_confidence v <? conf c)%float eqn:Hlt;
        [apply FloatOrder.ltb_irrefl | exact Hlt].
Qed.

(** With a threshold that is not negative, the largest confidence is
    0 before any detection and the confidence of a qualifying box
    after one. *)
Lemma scan_boxes_attained (bs : list Box) :
  (threshold <? 0)%float = false ->
  forall (v : Scan) (seen : list Box),
    (if monkey_detected v
     then exists b, In b seen /\ qualifies b = true
                    /\ max_confidence v = conf b
     else max_confidence v = 0%float) ->
    let v' := fold_left (scan_box colour threshold) bs v in
    if monkey_detected v'
    then exists b, In b (seen ++ bs) /\ qualifies b = true
                   /\ max_confidence v' = conf b
    else max_confidence v' = 0%float.
Proof.
  intros Hthr.
  induction bs as [|c bs IH]; intros v seen Hv; cbn.
  - now rewrite app_nil_r.
  - specialize (IH (scan_box colour threshold v c) (seen ++ [c])).
    cbv zeta in IH. rewrite <- app_assoc in IH. apply IH. clear IH.
    unfold scan_box. fold (qualifies c).
    destruct (qualifies c) eqn:Hq; cbn.
    + destruct (monkey_detected v).
      * destruct Hv as (b & Hin & Hqb & Hmax).
        destruct (max_confidence v <? conf c)%float.
        -- exists c. repeat split; [apply in_or_app; right; now left|exact Hq].
        -- exists b. repeat split; [apply in_or_app; now left|exact Hqb|exact Hmax].
      * rewrite Hv.
        rewrite (FloatOrder.ltb_zero_of_above threshold (conf c) Hthr Hq).
        exists c. repeat split; [apply in_or_app; right; now left|exact Hq].
    + destruct (monkey_detected v).
      * destruct Hv as (b & Hin & Hqb & Hmax).
        exists b. repeat split; [apply in_or_app; now left|exact Hqb|exact Hmax].
      * exact Hv.
Qed.

End Scan.

(** X1. The loop over the results of the model sets [monkey_detected]
    exactly when some box has a confidence above the threshold, and
    draws the boxes above the threshold, each once, in the order of the
    results; when no box is above the threshold it leaves
    [max_confidence] at 0 and draws nothing. *)
Theorem scan_detects_the_boxes_above_the_threshold
  (colour : float -> Colour) (threshold : float) (results : Results) :
  let v := scan colour threshold results in
  let above := filter (fun b => (threshold <? conf b)%float)
                 (all_boxes results) in
  monkey_detected v
    = existsb (fun b => (threshold <? conf b)%float) (all_boxes results)
  /\ drawn v = map (fun b => (b, colour (conf b))) above
  /\ (if monkey_detected v then above <> []
      else max_confidence v = 0%float /\ above = []).
Proof.
  cbv zeta. unfold scan. rewrite !scan_flat.
  rewrite scan_boxes_detected, scan_boxes_drawn. cbn [monkey_detected drawn orb app].
  repeat split.
  destruct (existsb _ (all_boxes results)) eqn:He.
  - apply existsb_exists in He as (b & Hin & Hb).
    intros Hnil.
    assert (Hf : In b (filter (fun b => (threshold <? conf b)%float)
                         (all_boxes results)))
      by (apply filter_In; split; assumption).
    rewrite Hnil in Hf. exact Hf.
  - rewrite (scan_boxes_none colour threshold _ _ He). split; [reflexivity|].
    destruct (filter _ (all_boxes results)) as [|b l] eqn:Hf; [reflexivity|].
    assert (Hb : In b (filter (fun b => (threshold <? conf b)%float)
                         (all_boxes results)))
      by (rewrite Hf; now left).
    apply filter_In in Hb as [Hin Hb].
    assert (Hex : existsb (fun b => (threshold <? conf b)%float)
                    (all_boxes results) = true)
      by (apply existsb_exists; exists b; split; assumption).
    congruence.
Qed.

(** X2. With a threshold that is not negative, as soon as one box of
    the results has a confidence above the threshold the loop has
    detected a monkey, and the [max_confidence] it emits is the
    confidence of one of the boxes above the threshold, itself above the
    threshold, and no box above the threshold has a larger one. *)
Theorem max_confidence_is_the_largest_above_the_threshold
  (colour : float -> Colour) (threshold : float) (results : Results)
  (b : Box) :
  (threshold <? 0)%float = false ->
  In b (all_boxes results) ->
  (threshold <? conf b)%float = true ->
  let v := scan colour threshold results in
  monkey_detected v = true
  /\ (max_confidence v <? conf b)%float = false
  /\ (threshold <? max_confidence v)%float = true
  /\ exists b', In b' (all_boxes results)
                /\ (threshold <? conf b')%float = true
                /\ max_confidence v = conf b'.
Proof.
  intros Hthr Hin Hb. cbv zeta. unfold scan. rewrite !scan_flat.
  assert (Hd : monkey_detected
                 (fold_left (scan_box colour threshold) (all_boxes results)
                    (mkScan false 0 [])) = true).
  { rewrite scan_boxes_detected. cbn [monkey_detected orb].
    apply existsb_exists. exists b. split; assumption. }
  pose proof (scan_boxes_attained colour threshold (all_boxes results) Hthr
                (mkScan false 0 []) [] eq_refl) as Hatt.
  cbv zeta in Hatt. rewrite Hd in Hatt. cbn [app] in Hatt.
  destruct Hatt as (b' & Hin' & Hb' & Hmax).
  split; [exact Hd|]. split; [|split].
  - apply (scan_boxes_bound colour threshold (all_boxes results)
             (mkScan false 0 []) []); [intros ? []|exact Hin|exact Hb].
  - rewrite Hmax. exact Hb'.
  - exists b'. repeat split; assumption.
Qed.

Lemma max_confidence_is_the_largest_above_the_threshold_witness :
  let b1 := mkBox 0.75 (10, 10, 50, 50) in
  let b2 := mkBox 0.875 (60, 10, 90, 50) in
  let b3 := mkBox 0.25 (0, 0, 5, 5) in
  let results := [Some [b3; b1]; None; Some [b2]] in
  let v := scan proper_colour 0.5 results in
  monkey_detected v = true
  /\ (max_confidence v <? conf b1)%float = false
  /\ (0.5 <? max_confidence v)%float = true
  /\ exists b', In b' (all_boxes results)
                /\ (0.5 <? conf b')%float = true
                /\ max_confidence v = conf b'.
Proof.
  intros b1 b2 b3 results.
  apply (max_confidence_is_the_largest_above_the_threshold
           proper_colour 0.5 results b1).
  - reflexivity.
  - right. left. reflexivity.
  - reflexivity.
Defined.

(** X15. What the threads emit.  A turn of [ProperDetectionThread]
    emits nothing when the frame could not be read or the model raised,
    and otherwise one signal, whose [detected] tells whether some box is
    above the threshold and whose confidence is 0 when none is.  A turn
    of [DetectionThread] emits one signal, with [detected] true, when
    the frame was read and some box is above the threshold, and nothing
    otherwise: it never reports a frame without a monkey. *)
Theorem threads_emit_at_most_one_signal_per_turn
  (threshold : float) (read : option ndarray)
  (infer : ndarray -> option Results) (infer' : ndarray -> Results) :
  let above := fun b => (threshold <? conf b)%float in
  emitted (proper_turn threshold read infer)
    = match read with
      | None => []
      | Some frame =>
          match infer frame with
          | None => []
          | Some results =>
              [mkResult (existsb above (all_boxes results))
                 (if existsb above (all_boxes results)
                  then max_confidence (scan proper_colour threshold results)
                  else 0%float)
                 frame]
          end
      end
  /\ emitted (plain_turn threshold read infer')
     = match read with
       | None => []
       | Some frame =>
           if existsb above (all_boxes (infer' frame))
           then [mkResult true
                   (max_confidence
                      (scan plain_colour threshold (infer' frame)))
                   frame]
           else []
       end.
Proof.
  cbv zeta. split.
  - destruct read as [frame|]; [|reflexivity]. cbn [proper_turn].
    destruct (infer frame) as [results|]; [|reflexivity].
    cbn [emitted]. unfold scan. rewrite !scan_flat, scan_boxes_detected.
    cbn [monkey_detected orb].
    destruct (existsb _ (all_boxes results)) eqn:He; [reflexivity|].
    now rewrite (scan_boxes_none proper_colour threshold _ _ He).
  - destruct read as [frame|]; [|reflexivity]. cbn [plain_turn emitted].
    unfold scan. rewrite !scan_flat, scan_boxes_detected.
    cbn [monkey_detected orb].
    destruct (existsb _ (all_boxes (infer' frame))); reflexivity.
Qed.

End WorkerFacts.

(** ** Properties of the window and its buttons *)

Module SessionFacts.

Import Session.

Ltac open_method :=
  unfold perform, exec, calls, handle_detection, start_detection,
    update_confidence, start_camera, stop_all, connect_arduino, test_buzzer,
    load_model, show_error, log_message, change, lift, bind, get, modify,
    call, when, ret.

Lemma exec_start_detection (clk : Clock) (s : DetectorApp.Self) :
  exec (DetectorApp.start_detection clk) s =
  if DetectorApp.model s
     && match DetectorApp.camera s with
        | Some opened => opened
        | None => false
        end
  then DetectorApp.set_no_detection_frames 0
         (DetectorApp.set_detection_start_time None
            (DetectorApp.set_monkey_present false
               (DetectorApp.set_detection_active true s)))
  else s.
Proof. destruct s as [[|] ? [[|]|] ? ? ? ? ? ? ? ?]; reflexivity. Qed.

(** The attributes after one operation. *)
Lemma attrs_perform (op : Op) (clk : Clock) (w : Window) :
  attrs (exec (perform op clk) w) =
  match op with
  | Deliver r => exec (DetectorApp.handle_detection r clk) (attrs w)
  | UpdateConfidence value =>
      set_confidence_threshold
        (DetectionGui.float_of_int value / 100)%float (attrs w)
  | StartCamera capture_raises => attrs w
  | StartCamera capture_closed => set_camera (Some false) (attrs w)
  | StartCamera capture_opened => set_camera (Some true) (attrs w)
  | StartDetection => exec (DetectorApp.start_detection clk) (attrs w)
  | StopAll =>
      set_camera None
        (DetectorApp.set_no_detection_frames 0
           (DetectorApp.set_monkey_present false
              (DetectorApp.set_detection_active false (attrs w))))
  | ConnectArduino _ serial_raises => attrs w
  | ConnectArduino _ status_raises => set_arduino true (attrs w)
  | ConnectArduino _ serial_ok =>
      set_arduino_connected true (set_arduino true (attrs w))
  | TestBuzzer _ => attrs w
  | LoadModel env => if loads env then set_model true (attrs w) else attrs w
  end.
Proof.
  destruct w as [a dt ct].
  destruct op as [r|value|[| |]| | |port [| |]|written|env].
  - open_method. cbn [attrs].
    destruct (DetectorApp.handle_detection r clk a) as [[u a'] cs].
    reflexivity.
  - reflexivity.
  - reflexivity.
  - reflexivity.
  - reflexivity.
  - open_method. cbn [attrs].
    destruct (DetectorApp.start_detection clk a) as [[u a'] cs]. cbn.
    destruct (DetectorApp.model a && _); reflexivity.
  - destruct a as [? [|] [c|] ? [|] ? ? ? ? ? ?], dt, ct; reflexivity.
  - reflexivity.
  - reflexivity.
  - reflexivity.
  - destruct a as [? [|] ? ? [|] ? ? ? ? ? ?], written; reflexivity.
  - destruct env as [[|] [|] [|c f] [|]]; reflexivity.
Qed.

(** The thread object after one operation. *)
Lemma detection_thread_perform (op : Op) (clk : Clock) (w : Window) :
  detection_thread (exec (perform op clk) w) =
  match op with
  | StartDetection =>
      if DetectorApp.model (attrs w)
         && match DetectorApp.camera (attrs w) with
            | Some opened => opened
            | None => false
            end
      then Some (DetectorApp.confidence_threshold (attrs w))
      else detection_thread w
  | _ => detection_thread w
  end.
Proof.
  destruct w as [a dt ct].
  destruct op as [r|value|[| |]| | |port [| |]|written|env];
    try reflexivity.
  - open_method. cbn [attrs].
    destruct (DetectorApp.handle_detection r clk a) as [[u a'] cs].
    reflexivity.
  - open_method. cbn [attrs].
    destruct (DetectorApp.start_detection clk a) as [[u a'] cs]. cbn.
    destruct (DetectorApp.model a && _); reflexivity.
  - destruct a as [? [|] [c|] ? [|] ? ? ? ? ? ?], dt, ct; reflexivity.
  - destruct a as [? [|] ? ? [|] ? ? ? ? ? ?], written; reflexivity.
  - destruct env as [[|] [|] [|c f] [|]]; reflexivity.
Qed.

Lemma detection_count_perform (op : Op) (clk : Clock) (w : Window) :
  DetectorApp.detection_count (attrs (exec (perform op clk) w)) =
  DetectorApp.detection_count (attrs w)
  + match op with
    | Deliver r =>
        if detected r && negb (DetectorApp.monkey_present (attrs w))
        then 1 else 0
    | _ => 0
    end.
Proof.
  rewrite attrs_perform.
  destruct op as [r|value|[| |]| | |port [| |]|written|env];
    try (destruct (attrs w); cbn; lia).
  - rewrite DetectorAppFacts.exec_handle_detection.
    destruct r as [[|] ? ?], (attrs w) as [? ? ? ? ? ? ? [|] ? ndf gap];
      cbn; try lia; destruct (gap <=? ndf + 1); cbn; lia.
  - rewrite exec_start_detection.
    destruct (attrs w) as [[|] ? [[|]|] ? ? ? ? ? ? ? ?]; cbn; lia.
  - destruct (loads env), (attrs w); cbn; lia.
Qed.

Lemma well_formed_perform (op : Op) (clk : Clock) (w : Window) :
  well_formed w -> well_formed (exec (perform op clk) w).
Proof.
  unfold well_formed. cbv zeta. rewrite attrs_perform.
  destruct op as [r|value|[| |]| | |port [| |]|written|env];
    try (destruct (attrs w); cbn; intros H; exact H).
  - rewrite DetectorAppFacts.exec_handle_detection.
    destruct r as [[|] ? ?], (attrs w) as [? ? ? ? ? ? ? [|] st ndf gap];
      cbn; try destruct (Z.leb_spec gap (ndf + 1)); cbn;
      intros (Hg & Hc & Hn & Hp);
      repeat split; try lia; try discriminate;
      try (destruct (Hp eq_refl); assumption).
  - rewrite exec_start_detection.
    destruct (attrs w) as [[|] ? [[|]|] ? ? ? ? ? ? ? ?]; cbn;
      intros (Hg & Hc & Hn & Hp); repeat split;
      try lia; try discriminate; try (apply Hp; assumption).
  - destruct (attrs w); cbn. intros (Hg & Hc & Hn & Hp).
    repeat split; try lia; discriminate.
  - destruct (loads env), (attrs w); cbn; intros H; exact H.
Qed.

Lemma flags_perform (op : Op) (clk : Clock) (w : Window) :
  let a := attrs w in
  let a' := attrs (exec (perform op clk) w) in
  implb (DetectorApp.arduino_connected a) (DetectorApp.arduino_connected a')
    = true
  /\ implb (DetectorApp.arduino a) (DetectorApp.arduino a') = true
  /\ implb (DetectorApp.model a) (DetectorApp.model a') = true
  /\ DetectorApp.min_gap_frames a' = DetectorApp.min_gap_frames a.
Proof.
  cbv zeta. rewrite attrs_perform.
  destruct op as [r|value|[| |]| | |port [| |]|written|env];
    try (destruct (attrs w) as [[|] [|] ? ? [|] ? ? ? ? ? ?]; cbn;
         repeat split; reflexivity).
  - rewrite DetectorAppFacts.exec_handle_detection.
    destruct r as [[|] ? ?],
      (attrs w) as [[|] [|] ? ? [|] ? ? [|] ? ndf gap];
      cbn; try destruct (gap <=? ndf + 1); cbn; repeat split; reflexivity.
  - rewrite exec_start_detection.
    destruct (attrs w) as [[|] [|] [[|]|] ? [|] ? ? ? ? ? ?]; cbn;
      repeat split; reflexivity.
  - destruct (loads env), (attrs w) as [[|] [|] ? ? [|] ? ? ? ? ? ?]; cbn;
      repeat split; reflexivity.
Qed.

(** *** Sequences of operations *)

(** X3. Whatever is done to a window (signals delivered, slider
    moved, camera, detection, Arduino, model or stop buttons pressed,
    whatever the outside world answers), it keeps a gap of at least 1, a
    count and an absence counter that are not negative and, while the
    monkey is present, an absence counter below the gap and a recorded
    start time. *)
Theorem operations_keep_the_window_well_formed
  (sched : Schedule) (w : Window) (ops : list Op) :
  well_formed w -> well_formed (after sched w ops).
Proof.
  revert sched w.
  induction ops as [|op ops IH]; intros sched w Hw; [exact Hw|].
  cbn [after]. apply IH. now apply well_formed_perform.
Qed.

Lemma operations_keep_the_window_well_formed_witness :
  let sched : Schedule := fun _ => mkClock 0 EmptyString in
  let T := mkResult true 0.75 [] in
  let F := mkResult false 0 [] in
  let ops := [LoadModel (mkLoading true true EmptyString false);
              StartCamera capture_opened; StartDetection;
              Deliver T; Deliver F; UpdateConfidence 90; Deliver F;
              StopAll; Deliver T] in
  well_formed init /\ well_formed (after sched init ops).
Proof.
  intros sched T F ops.
  assert (Hinit : well_formed init).
  { unfold well_formed. cbn. repeat split; try lia; discriminate. }
  split; [exact Hinit|].
  apply (operations_keep_the_window_well_formed sched init ops Hinit).
Defined.

(** X4. Over any sequence of operations the detection count is the
    count before plus the number of detections delivered while the
    monkey was absent: no button changes it, neither [start_detection]
    nor [stop_all] resets it, and it never goes down. *)
Theorem detection_count_is_cumulative
  (sched : Schedule) (w : Window) (ops : list Op) :
  DetectorApp.detection_count (attrs (after sched w ops))
    = DetectorApp.detection_count (attrs w)
      + Z.of_nat (new_sightings sched w ops)
  /\ DetectorApp.detection_count (attrs w)
     <= DetectorApp.detection_count (attrs (after sched w ops)).
Proof.
  assert (H : forall ops sched w,
             DetectorApp.detection_count (attrs (after sched w ops))
             = DetectorApp.detection_count (attrs w)
               + Z.of_nat (new_sightings sched w ops)).
  { clear. induction ops as [|op ops IH]; intros sched w.
    - cbn. lia.
    - cbn [after new_sightings]. rewrite IH, detection_count_perform.
      rewrite Nat2Z.inj_add.
      destruct op as [r| | | | | | |]; try lia.
      destruct (detected r && negb (DetectorApp.monkey_present (attrs w)));
        lia. }
  split; [apply H|]. rewrite H. lia.
Qed.

(** X5. No operation clears [arduino_connected], [arduino] or [model],
    and none changes [min_gap_frames]: once the Arduino was connected
    the window takes it as connected for good (also after a later
    connection attempt that fails, and after [stop_all]), and a loaded
    model stays loaded. *)
Theorem connection_and_model_are_never_cleared
  (sched : Schedule) (w : Window) (ops : list Op) :
  let a := attrs w in
  let a' := attrs (after sched w ops) in
  implb (DetectorApp.arduino_connected a) (DetectorApp.arduino_connected a')
    = true
  /\ implb (DetectorApp.arduino a) (DetectorApp.arduino a') = true
  /\ implb (DetectorApp.model a) (DetectorApp.model a') = true
  /\ DetectorApp.min_gap_frames a' = DetectorApp.min_gap_frames a.
Proof.
  cbv zeta. revert sched w.
  induction ops as [|op ops IH]; intros sched w.
  - cbn. rewrite !implb_same. repeat split.
  - cbn [after].
    destruct (IH (later sched) (exec (perform op (sched O)) w))
      as (H1 & H2 & H3 & H4).
    destruct (flags_perform op (sched O) w) as (G1 & G2 & G3 & G4).
    rewrite H4, G4. repeat split.
    + destruct (DetectorApp.arduino_connected (attrs w)); [|reflexivity].
      cbn in G1. now rewrite G1 in H1.
    + destruct (DetectorApp.arduino (attrs w)); [|reflexivity].
      cbn in G2. now rewrite G2 in H2.
    + destruct (DetectorApp.model (attrs w)); [|reflexivity].
      cbn in G3. now rewrite G3 in H3.
Qed.

(** X6. The detection thread keeps the threshold it was created
    with: when [start_detection] passes its guards the thread gets the
    threshold of that moment, and no later operation other than another
    [start_detection] changes it, while [update_confidence] does change
    the attribute of the window. *)
Theorem slider_does_not_reach_a_started_thread
  (sched : Schedule) (w : Window) (ops : list Op) (value : Z) :
  DetectorApp.model (attrs w) = true ->
  DetectorApp.camera (attrs w) = Some true ->
  ~ In StartDetection ops ->
  let w' := after sched w (StartDetection :: ops) in
  detection_thread w' = Some (DetectorApp.confidence_threshold (attrs w))
  /\ detection_thread (exec (update_confidence value) w')
     = Some (DetectorApp.confidence_threshold (attrs w))
  /\ DetectorApp.confidence_threshold
       (attrs (exec (update_confidence value) w'))
     = threshold_of value.
Proof.
  intros Hm Hc Hops. cbv zeta.
  assert (H : forall ops sched w, ~ In StartDetection ops ->
             detection_thread (after sched w ops) = detection_thread w).
  { clear. induction ops as [|op ops IH]; intros sched w Hn; [reflexivity|].
    cbn [after]. rewrite IH by (intros Hin; apply Hn; now right).
    rewrite detection_thread_perform.
    destruct op; try reflexivity. exfalso. apply Hn. now left. }
  cbn [after]. rewrite (H ops _ _ Hops), detection_thread_perform, Hm, Hc.
  cbn [andb].
  change (update_confidence value)
    with (perform (UpdateConfidence value) (sched O)).
  rewrite detection_thread_perform, attrs_perform.
  rewrite (H ops _ _ Hops), detection_thread_perform, Hm, Hc. cbn [andb].
  repeat split.
Qed.

Lemma slider_does_not_reach_a_started_thread_witness :
  let sched : Schedule := fun _ => mkClock 0 EmptyString in
  let w := set_attrs (set_camera (Some true) (set_model true DetectorApp.init))
             init in
  let ops := [UpdateConfidence 90; Deliver (mkResult true 0.75 [])] in
  let w' := after sched w (StartDetection :: ops) in
  detection_thread w' = Some (DetectorApp.confidence_threshold (attrs w))
  /\ detection_thread (exec (update_confidence 20) w')
     = Some (DetectorApp.confidence_threshold (attrs w))
  /\ DetectorApp.confidence_threshold
       (attrs (exec (update_confidence 20) w'))
     = threshold_of 20.
Proof.
  intros sched w ops.
  apply (slider_does_not_reach_a_started_thread sched w ops 20).
  - reflexivity.
  - reflexivity.
  - intros [H|[H|[]]]; discriminate H.
Defined.

(** *** Stopping and starting again *)

(** X7. [stop_all] releases the camera, so a [start_detection] that
    follows it is refused with the request to start the camera and
    changes nothing; once the camera is started again detection starts,
    and a detection delivered then is counted as a new sighting, also
    when the monkey was present when [stop_all] was pressed. *)
Theorem detection_restarts_only_after_the_camera
  (sched : Schedule) (w : Window) (clk clk' : Clock) (r : DetectionResult) :
  DetectorApp.model (attrs w) = true ->
  detected r = true ->
  let w' := exec (stop_all clk) w in
  exec (start_detection clk') w' = w'
  /\ calls (start_detection clk') w'
     = [slot (DetectorApp.critical_box DetectorApp.StartCameraFirst);
        slot (DetectorApp.log_text_append (strftime_hms clk')
                DetectorApp.StartCameraFirst)]
  /\ DetectorApp.detection_active
       (attrs (after sched w' [StartCamera capture_opened; StartDetection]))
     = true
  /\ DetectorApp.detection_count
       (attrs (after sched w'
                 [StartCamera capture_opened; StartDetection; Deliver r]))
     = DetectorApp.detection_count (attrs w) + 1.
Proof.
  intros Hm Hr. cbv zeta.
  destruct r as [d c f]. cbn in Hr. subst d.
  destruct w as [[m ar cam act con thr cnt pres st ndf gap] dt ct].
  cbn in Hm. subst m.
  destruct ar, cam as [[|]|], con, dt, ct; repeat split; reflexivity.
Qed.

Lemma detection_restarts_only_after_the_camera_witness :
  let sched : Schedule := fun _ => mkClock 0 EmptyString in
  let clk := mkClock 0 EmptyString in
  let r := mkResult true 0.75 [] in
  let w := after sched init
             [LoadModel (mkLoading true true EmptyString false);
              StartCamera capture_opened; StartDetection; Deliver r] in
  let w' := exec (stop_all clk) w in
  exec (start_detection clk) w' = w'
  /\ calls (start_detection clk) w'
     = [slot (DetectorApp.critical_box DetectorApp.StartCameraFirst);
        slot (DetectorApp.log_text_append (strftime_hms clk)
                DetectorApp.StartCameraFirst)]
  /\ DetectorApp.detection_active
       (attrs (after sched w' [StartCamera capture_opened; StartDetection]))
     = true
  /\ DetectorApp.detection_count
       (attrs (after sched w'
                 [StartCamera capture_opened; StartDetection; Deliver r]))
     = DetectorApp.detection_count (attrs w) + 1.
Proof.
  intros sched clk r w.
  apply (detection_restarts_only_after_the_camera sched w clk clk r);
    reflexivity.
Defined.

(** X8. [stop_all] pressed a second time leaves the window as the
    first one left it: it stops the threads again and writes STOP_ALERT
    again when the Arduino is connected, but finds no camera to release.
    Neither changes the detection count. *)
Theorem stop_all_is_idempotent (w : Window) (clk clk' : Clock) :
  let w' := exec (stop_all clk) w in
  exec (stop_all clk') w' = w'
  /\ DetectorApp.detection_count (attrs w')
     = DetectorApp.detection_count (attrs w)
  /\ calls (stop_all clk') w'
     = (match detection_thread w with
        | Some _ => [detection_thread_stop]
        | None => []
        end)
       ++ (if camera_thread w then [camera_thread_stop] else [])
       ++ (if DetectorApp.arduino_connected (attrs w)
              && DetectorApp.arduino (attrs w)
           then [slot (DetectorApp.arduino_write STOP_ALERT)] else [])
       ++ [camera_status_label_setText false;
           current_status_label_setText_stopped;
           camera_label_reset;
           system_status_label_setText_ready;
           log_text_append (strftime_hms clk') AllOperationsStopped].
Proof.
  cbv zeta.
  destruct w as [[m ar cam act con thr cnt pres st ndf gap] dt ct].
  destruct ar, cam as [c|], con, dt, ct; repeat split; reflexivity.
Qed.

(** *** The slider *)

Lemma slider_values_checked :
  forallb (fun a =>
    forallb (fun b =>
      implb (a <? b)
        ((0 <? threshold_of a)%float
         && (threshold_of a <? threshold_of b)%float
         && (threshold_of b <? 1)%float))
      slider_values)
    slider_values = true.
Proof. vm_compute. reflexivity. Qed.

Lemma in_slider_values (v : Z) : 10 <= v <= 95 -> In v slider_values.
Proof.
  intros Hv. unfold slider_values. apply in_map_iff.
  exists (Z.to_nat v). split; [lia|]. apply in_seq. lia.
Qed.

(** X9. For the values the slider can take (10 to 95),
    [update_confidence] sets a threshold strictly between 0 and 1 that
    grows strictly with the value. *)
Theorem slider_thresholds_grow_between_zero_and_one
  (w : Window) (v v' : Z) :
  10 <= v -> v < v' -> v' <= 95 ->
  let t := DetectorApp.confidence_threshold
             (attrs (exec (update_confidence v) w)) in
  let t' := DetectorApp.confidence_threshold
              (attrs (exec (update_confidence v') w)) in
  (0 <? t)%float = true
  /\ (t <? t')%float = true
  /\ (t' <? 1)%float = true.
Proof.
  intros H1 H2 H3. cbv zeta.
  change (DetectorApp.confidence_threshold
            (attrs (exec (update_confidence v) w))) with (threshold_of v).
  change (DetectorApp.confidence_threshold
            (attrs (exec (update_confidence v') w))) with (threshold_of v').
  pose proof slider_values_checked as Hall.
  rewrite forallb_forall in Hall.
  specialize (Hall v (in_slider_values v ltac:(lia))).
  rewrite forallb_forall in Hall.
  specialize (Hall v' (in_slider_values v' ltac:(lia))).
  assert (Hlt : (v <? v') = true) by (apply Z.ltb_lt; exact H2).
  rewrite Hlt in Hall. cbn [implb] in Hall.
  apply andb_true_iff in Hall as [Hall Hc].
  apply andb_true_iff in Hall as [Ha Hb].
  repeat split; assumption.
Qed.

Lemma slider_thresholds_grow_between_zero_and_one_witness :
  let t := DetectorApp.confidence_threshold
             (attrs (exec (update_confidence 10) init)) in
  let t' := DetectorApp.confidence_threshold
              (attrs (exec (update_confidence 95) init)) in
  (0 <? t)%float = true
  /\ (t <? t')%float = true
  /\ (t' <? 1)%float = true.
Proof.
  apply (slider_thresholds_grow_between_zero_and_one init 10 95); lia.
Defined.

End SessionFacts.

(** ** The serial port *)

Module BuzzerFacts.

Import DetectorApp.





End BuzzerFacts.

(** ** Properties of monkey_detection_gui.py *)

Module DetectionGuiFacts.

Import DetectionGui.

(** Whether a delivery is counted. *)
Lemma counted_exec_handle_detection (r : DetectionResult) (clk : Clock) (g : Self) :
  exec (handle_detection r clk) g =
  if detected r
     && (float_of_int (alert_cooldown g)
         <? time_time clk - last_detection_time g)%float
  then set_last_detection_time (time_time clk)
         (set_detection_count (detection_count g + 1) g)
  else g.
Proof.
  destruct r as [[|] ? ?], g as [[|] [|] ? ? ? [|] ?];
    unfold exec, handle_detection, bind, get; cbn; try reflexivity;
    destruct (PrimFloat.ltb _ _); reflexivity.
Qed.

Lemma counted_commands_handle_detection (r : DetectionResult) (clk : Clock) (g : Self) :
  commands (calls (handle_detection r clk) g) =
  if detected r
     && (float_of_int (alert_cooldown g)
         <? time_time clk - last_detection_time g)%float
     && (arduino_connected g && arduino g)
  then [MONKEY_DETECTED] else [].
Proof.
  destruct r as [[|] ? ?], g as [[|] [|] ? ? ? [|] ?];
    unfold calls, handle_detection, bind, get; cbn; try reflexivity;
    destruct (PrimFloat.ltb _ _); reflexivity.
Qed.

(** X11. Over any run of the slot of monkey_detection_gui.py the
    detection count never goes down and goes up by at most one per
    delivery with [detected] true; the slot never writes STOP_ALERT, and
    with the Arduino connected it writes MONKEY_DETECTED once for every
    detection it counts (nothing without it).  The cool-down and the
    connection are left as they are. *)
Theorem cooldown_slot_alerts_once_per_counted_detection
  (sched : Schedule) (g : Self) (rs : list DetectionResult) :
  detection_count g <= detection_count (final sched g rs)
  /\ detection_count (final sched g rs)
     <= detection_count g + Z.of_nat (length (filter detected rs))
  /\ alert_cooldown (final sched g rs) = alert_cooldown g
  /\ arduino_connected (final sched g rs) && arduino (final sched g rs)
     = arduino_connected g && arduino g
  /\ concat (map commands (trace sched g rs))
     = repeat MONKEY_DETECTED
         (if arduino_connected g && arduino g
          then Z.to_nat (detection_count (final sched g rs)
                         - detection_count g)
          else O).
Proof.
  revert sched g.
  induction rs as [|r rs IH]; intros sched g.
  - cbn. rewrite Z.sub_diag. destruct (_ && _); repeat split; lia.
  - cbn [final trace map concat filter].
    destruct (IH (later sched) (exec (handle_detection r (sched O)) g))
      as (H1 & H2 & H3 & H4 & H5).
    rewrite H3, H4, H5, counted_commands_handle_detection. clear H3 H4 H5.
    revert H1 H2. rewrite counted_exec_handle_detection.
    set (g' := final (later sched) _ rs).
    destruct (detected r); cbn [andb length].
    + destruct (PrimFloat.ltb _ _);
        destruct g as [ar con cnt last cool sv fol]; cbn in *;
        intros H1 H2; repeat split; try lia;
        destruct con, ar; cbn; try reflexivity.
      replace (Z.to_nat (detection_count g' - cnt))
        with (S (Z.to_nat (detection_count g' - (cnt + 1)))) by lia.
      reflexivity.
    + destruct g as [ar con cnt last cool sv fol]; cbn in *.
      intros H1 H2. repeat split; lia.
Qed.

End DetectionGuiFacts.

(** ** Properties of the hyper-parameter search *)

Module TuningFacts.

Import Tuning.

Lemma fold_left_flat_map {A B C : Type}
  (f : A -> C -> A) (g : B -> list C) (l : list B) :
  forall a : A,
    fold_left f (flat_map g l) a
    = fold_left (fun a x => fold_left f (g x) a) l a.
Proof.
  induction l as [|x l IH]; intros a; cbn; [reflexivity|].
  now rewrite fold_left_app, IH.
Qed.

Lemma fold_left_of_map {A B C : Type}
  (f : A -> C -> A) (h : B -> C) (l : list B) :
  forall a : A,
    fold_left f (map h l) a = fold_left (fun a x => f a (h x)) l a.
Proof.
  induction l as [|x l IH]; intros a; cbn; [reflexivity|]. apply IH.
Qed.

Lemma fold_left_same {A B : Type} (f g : A -> B -> A) (l : list B) :
  (forall a x, f a x = g a x) ->
  forall a : A, fold_left f l a = fold_left g l a.
Proof.
  intros Hfg. induction l as [|x l IH]; intros a; cbn; [reflexivity|].
  now rewrite Hfg, IH.
Qed.

Lemma search_flat (train : Trainer) :
  search train
  = fold_left (fun s p => try_params train p s) grid (mkSearch O 0 None).
Proof.
  unfold search, grid. rewrite fold_left_flat_map.
  apply fold_left_same. intros s lr.
  rewrite fold_left_flat_map.
  apply fold_left_same. intros s' b.
  now rewrite fold_left_of_map.
Qed.

Lemma flat_trials (train : Trainer) (ps : list Params) :
  forall s : Search,
    let s' := fold_left (fun s p => try_params train p s) ps s in
    (best_map s', best_params s')
    = fold_left pick
        (map (fun kp => (snd kp, train (fst kp) (snd kp)))
           (combine (seq (trained s) (length ps)) ps))
        (best_map s, best_params s)
    /\ trained s' = (trained s + length ps)%nat.
Proof.
  induction ps as [|p ps IH]; intros s; cbn [fold_left length seq combine map].
  - split; [reflexivity|lia].
  - cbv zeta in IH. destruct (IH (try_params train p s)) as [H1 H2].
    rewrite H1, H2. clear IH H1 H2.
    unfold try_params, pick. cbn [fst snd].
    destruct (best_map s <? train (trained s) p)%float; cbn; split;
      try reflexivity; lia.
Qed.

Lemma search_trained (train : Trainer) : trained (search train) = 27%nat.
Proof.
  rewrite search_flat.
  exact (proj2 (flat_trials train grid (mkSearch O 0 None))).
Qed.

Lemma search_trials (train : Trainer) :
  (best_map (search train), best_params (search train))
  = fold_left pick (trials train) (0%float, None).
Proof.
  rewrite search_flat.
  exact (proj1 (flat_trials train grid (mkSearch O 0 None))).
Qed.

Lemma pick_bound (ts : list (Params * float)) :
  forall (b : float * option Params) (seen : list (Params * float)),
    (forall t, In t seen -> (fst b <? snd t)%float = false) ->
    forall t, In t (seen ++ ts) ->
      (fst (fold_left pick ts b) <? snd t)%float = false.
Proof.
  induction ts as [|c ts IH]; intros b seen Hb t Hin; cbn.
  - rewrite app_nil_r in Hin. now apply Hb.
  - apply (IH _ (seen ++ [c])); [|now rewrite <- app_assoc].
    intros t' Hin'. unfold pick.
    apply in_app_or in Hin' as [Hin'|[<-|[]]].
    + specialize (Hb t' Hin').
      destruct (fst b <? snd c)%float eqn:Hlt; [|exact Hb]. cbn.
      destruct (snd c <? snd t')%float eqn:Hct; [|reflexivity].
      now rewrite (FloatOrder.ltb_trans _ _ _ Hlt Hct) in Hb.
    + destruct (fst b <? snd c)%float eqn:Hlt;
        [apply FloatOrder.ltb_irrefl | exact Hlt].
Qed.

Lemma pick_attained (ts : list (Params * float)) :
  forall (b : float * option Params) (seen : list (Params * float)),
    match snd b with
    | None => fst b = 0%float
    | Some p => In (p, fst b) seen /\ (0 <? fst b)%float = true
    end ->
    match snd (fold_left pick ts b) with
    | None => fst (fold_left pick ts b) = 0%float
    | Some p => In (p, fst (fold_left pick ts b)) (seen ++ ts)
                /\ (0 <? fst (fold_left pick ts b))%float = true
    end.
Proof.
  induction ts as [|[p s] ts IH]; intros b seen Hb; cbn [fold_left].
  - now rewrite app_nil_r.
  - specialize (IH (pick b (p, s)) (seen ++ [(p, s)])).
    rewrite <- app_assoc in IH. apply IH. clear IH.
    unfold pick. cbn [fst snd].
    destruct (fst b <? s)%float eqn:Hlt; cbn [fst snd].
    + split; [apply in_or_app; right; now left|].
      destruct (snd b) as [q|].
      * destruct Hb as [_ Hpos]. exact (FloatOrder.ltb_trans _ _ _ Hpos Hlt).
      * now rewrite Hb in Hlt.
    + destruct (snd b) as [q|]; [|exact Hb].
      destruct Hb as [Hin Hpos]. split; [apply in_or_app; now left|exact Hpos].
Qed.

(** What the best result and its combination are, given that they are
    the outcome of the trials. *)
Lemma best_of_trials (train : Trainer) (s : Search) :
  (best_map s, best_params s) = fold_left pick (trials train) (0%float, None) ->
  (forall p m, In (p, m) (trials train) -> (best_map s <? m)%float = false)
  /\ match best_params s with
     | None =>
         best_map s = 0%float
         /\ forall p m, In (p, m) (trials train) -> (0 <? m)%float = false
     | Some p =>
         In (p, best_map s) (trials train) /\ (0 <? best_map s)%float = true
     end.
Proof.
  intros Hs.
  pose proof (pick_bound (trials train) (0%float, None) []
                (fun t H => match H with end)) as Hbound.
  pose proof (pick_attained (trials train) (0%float, None) [] eq_refl)
    as Hatt.
  rewrite <- Hs in Hbound, Hatt. cbn [fst snd app] in Hbound, Hatt.
  split; [intros p m Hin; exact (Hbound (p, m) Hin)|].
  destruct (best_params s) as [p|].
  - exact Hatt.
  - split; [exact Hatt|]. intros p m Hin.
    rewrite <- Hatt. exact (Hbound (p, m) Hin).
Qed.

(** X12. [tune_hyperparameters] trains the 27 combinations of the
    search space, in the order of the loops, and no training has a mAP
    above the best one it keeps.  It returns the combination of a
    training whose mAP is that best one and is above 0; when it returns
    the empty dictionary the best mAP is still 0, so no training had a
    mAP above 0. *)
Theorem tuning_returns_a_best_combination (train : Trainer) :
  let s := search train in
  length (trials train) = 27%nat
  /\ map fst (trials train) = grid
  /\ trained s = 27%nat
  /\ tune_hyperparameters train = best_params s
  /\ (forall p m, In (p, m) (trials train) -> (best_map s <? m)%float = false)
  /\ match best_params s with
     | None =>
         best_map s = 0%float
         /\ forall p m, In (p, m) (trials train) -> (0 <? m)%float = false
     | Some p =>
         In (p, best_map s) (trials train) /\ (0 <? best_map s)%float = true
     end.
Proof.
  intros s.
  split; [reflexivity|]. split; [reflexivity|].
  split; [apply search_trained|]. split; [reflexivity|].
  apply best_of_trials, search_trials.
Qed.

End TuningFacts.

(** ** Properties of test_your_model.py *)

Module ModelTestFacts.

Import ModelTest.

Lemma key_low_byte (t : Turn) (n : Z) :
  key (mkTurn (ret t) (boxes t) (wait_key t + 256 * n)) = key t.
Proof.
  unfold key. cbn [wait_key].
  change 255 with (Z.ones 8). rewrite !Z.land_ones by lia.
  change (2 ^ 8) with 256.
  rewrite (Z.mul_comm 256 n). apply Z.mod_add. lia.
Qed.

(** X13. The test loop counts frames, not sightings: the count it
    ends with is the count it began with plus the number of turns with a
    box among those it went through (the turns before the first failed
    read, up to and including the first turn whose key is q), so a monkey
    that stays in view is counted at every frame; the loop is left on a
    failed read or on q, and not otherwise. *)
Theorem test_loop_counts_frames_with_boxes
  (detection_count : Z) (turns : list Turn) :
  let '(n, out, stopped) := loop detection_count turns in
  n = detection_count + Z.of_nat (length (filter has_boxes (processed turns)))
  /\ stopped = existsb (fun t => negb (ret t) || (key t =? 113)) turns
  /\ length (filter (fun o => match o with imshow => true | _ => false end) out)
     = length (processed turns).
Proof.
  revert detection_count.
  induction turns as [|t turns IH]; intros n0; cbn [loop processed existsb].
  - cbn. repeat split. lia.
  - destruct (ret t); cbn [negb orb].
    + destruct (key t =? 113) eqn:Hq.
      * cbn [filter length]. destruct (has_boxes t); cbn; repeat split; lia.
      * specialize (IH (if has_boxes t then n0 + 1 else n0)).
        destruct (loop (if has_boxes t then n0 + 1 else n0) turns)
          as [[n out] stopped].
        destruct IH as (Hn & Hl & Hs). cbn [filter].
        rewrite !filter_app, !length_app, Hs, Hn.
        destruct (has_boxes t), (key t =? 115); cbn [length filter app];
          repeat split; try assumption; lia.
    + cbn. repeat split. lia.
Qed.

(** X14. Only the low byte of what [cv2.waitKey] returns matters:
    adding any multiple of 256 to the key codes of the turns changes
    neither the count, nor the outputs, nor when the loop is left. *)
Theorem test_loop_reads_the_low_byte_of_the_key
  (detection_count : Z) (turns : list Turn) (n : Z) :
  loop detection_count
    (map (fun t => mkTurn (ret t) (boxes t) (wait_key t + 256 * n)) turns)
  = loop detection_count turns.
Proof.
  revert detection_count.
  induction turns as [|t turns IH]; intros n0; [reflexivity|].
  cbn [map loop]. rewrite key_low_byte, IH.
  unfold has_boxes. cbn [ret boxes]. reflexivity.
Qed.

End ModelTestFacts.
